(** * eCrash: crash-capture library (eCrash.c) -- shallow embedding and properties

    The development follows eCrash.c function by function.  The C statics
    ([gbl_params], [gbl_fd], the shared backtrace buffer, the completion flag,
    [ThreadList]) are the fields of one [State] record that every operation
    threads explicitly; the kernel and libc objects the code talks to (signal
    dispositions, descriptors, stdio streams, the other threads of the
    process) are further fields of that record or of the read-only [Env].

    The header eCrash.h enters in two ways: its constants are the fields of
    [eCrash_h], a parameter of every definition that needs one of them, and
    its types and its debug macro are modelled after the library's
    specification and the way eCrash.c uses them. *)

From Stdlib Require Import ZArith List String Ascii Bool Lia.
From Stdlib Require Import DecimalString HexadecimalString.
Import ListNotations.

Local Open Scope string_scope.
Local Open Scope list_scope.
Local Open Scope Z_scope.

Set Implicit Arguments.

(* ================================================================== *)
(** ** eCrash.h: constants and types *)

(** The constants eCrash.c takes from eCrash.h, as parameters: nothing is
    assumed about their values. *)
Record eCrash_h := {
  MAX_LINE_LEN : Z;
  ECRASH_DEFAULT_STACK_DEPTH : Z;
  ECRASH_DEFAULT_BACKTRACE_SIGNAL : Z;
  ECRASH_DEFAULT_THREAD_WAIT_TIME : Z;
  ECRASH_DEBUG_VERY_VERBOSE : Z;
  ECRASH_DEBUG_VERBOSE : Z;
  ECRASH_DEBUG_ERROR : Z;
  ECRASH_DEBUG_DEFAULT : Z
}.

(** Addresses ([void *]) and thread identifiers are unsigned machine words. *)
Definition ptr_bits : Z := 64.
Definition to_ulong (a : Z) : Z := a mod 2 ^ ptr_bits.

(** [unsigned int] and [int] are 32 bits wide: what a number becomes when
    it is stored in, or passed as, one of them. *)
Definition to_uint (a : Z) : Z := a mod 2 ^ 32.
Definition to_int (a : Z) : Z := (a + 2 ^ 31) mod 2 ^ 32 - 2 ^ 31.

Definition pthread_t := Z.

(** Modelled from the spec: the struct [eCrashSymbol] of eCrash.h, a
    function name and its entry address; the field names are those
    eCrash.c uses. *)
Record eCrashSymbol := {
  function : string;
  address : Z
}.

(** Modelled from the spec: the struct [eCrashSymbolTable] of eCrash.h, an
    ordered sequence of symbols; [symbols] is the array and [numSymbols]
    its length. *)
Record eCrashSymbolTable := {
  symbols : list eCrashSymbol
}.

Definition numSymbols (t : eCrashSymbolTable) : Z :=
  Z.of_nat (List.length (symbols t)).

(** Modelled from the spec: the struct [eCrashParameters] of eCrash.h, the
    configuration, with the fields eCrash.c and ecrash_test.c use.  A NULL
    [filename], [filep] or [symbolTable] is [None]; an absent descriptor
    is [-1]; [signals] is the whole array, ended by a zero.  The depth
    and the wait time are counts ([unsigned int]), never negative. *)
Record eCrashParameters := {
  filename : option string;
  filep : option Z;
  fd : Z;
  debugLevel : Z;
  dumpAllThreads : bool;
  maxStackDepth : Z;
  defaultBacktraceSignal : Z;
  threadWaitTime : Z;
  useBacktraceSymbols : bool;
  symbolTable : option eCrashSymbolTable;
  signals : list Z
}.

(* ================================================================== *)
(** ** The process around the library *)

(** The dispositions a signal can have: the two standard ones, the two
    handlers of eCrash.c, or a handler of the application. *)
Inductive handler :=
  | SIG_DFL
  | SIG_IGN
  | H_crash_handler
  | H_bt_handler
  | H_other (id : Z).

(** [sighandler_t]: a disposition, or the error value of [signal]. *)
Inductive sighandler_t :=
  | Handler (f : handler)
  | SIG_ERR.

(** Linux signal numbers the model of [signal] needs. *)
Definition NSIG : Z := 65.
Definition SIGKILL : Z := 9.
Definition SIGSTOP : Z := 19.

(** Signals whose disposition [signal] can change: in range, neither
    SIGKILL nor SIGSTOP nor one of the two libc keeps for itself. *)
Definition catchable (signo : Z) : bool :=
  (1 <=? signo) && (signo <? NSIG)
  && negb (signo =? SIGKILL) && negb (signo =? SIGSTOP)
  && negb (signo =? 32) && negb (signo =? 33).

(** [ThreadListNode]; the [Next] link is the tail of the list. *)
Record ThreadListNode := {
  threadName : string;
  thread : pthread_t;
  backtraceSignal : Z;
  oldHandler : sighandler_t
}.

(** What is behind a descriptor or a stream: the results the coming
    [write] calls will report ([chan_script], an exhausted script accepts
    every byte offered), and the bytes delivered so far. *)
Record channel := {
  chan_script : list Z;
  chan_received : string;
  chan_open : bool
}.

(** Arguments of a printf-style call. *)
Inductive printf_arg :=
  | ANum (z : Z)
  | AStr (s : string).

(** One call of [outputPrintf]: the format and its arguments. *)
Record printf_call := {
  call_format : string;
  call_args : list printf_arg
}.

Inductive open_mode := OpenAppend | OpenCreate.

(** The read-only surroundings: the file system, every thread's call stack
    (return addresses, innermost first), how many whole seconds a thread
    takes to run a handler once signalled ([None]: it never does), and
    libc's [backtrace_symbols]. *)
Record Env := {
  env_open : string -> open_mode -> Z;
  env_stack : pthread_t -> list Z;
  env_latency : pthread_t -> option nat;
  env_backtrace_symbols : list Z -> option (list string)
}.

(** The statics of eCrash.c, then the kernel and libc state (the signals
    sent and not yet taken, with the seconds each has to go; the results
    the coming [malloc] calls will report; the seconds slept so far), then
    three traces: every [pthread_kill] call with its thread and signal,
    every [DPRINTF] with its level, and every [outputPrintf] call. *)
Record State := {
  gbl_params : eCrashParameters;
  gbl_fd : Z;
  gbl_backtraceEntries : Z;
  gbl_backtraceBuffer : list Z;
  gbl_backtraceCapacity : Z;
  gbl_backtraceSymbols : option (list string);
  gbl_backtraceDoneFlag : Z;
  ThreadList : list ThreadListNode;
  sigtable : Z -> handler;
  fds : Z -> option channel;
  streams : Z -> option channel;
  pending : list (pthread_t * Z * nat);
  malloc_results : list bool;
  clock : nat;
  sent : list (pthread_t * Z);
  debug_trace : list (Z * string);
  emitted : list printf_call
}.

Definition set_gbl_params (v : eCrashParameters) (s : State) : State :=
  {| gbl_params := v; gbl_fd := gbl_fd s;
     gbl_backtraceEntries := gbl_backtraceEntries s;
     gbl_backtraceBuffer := gbl_backtraceBuffer s;
     gbl_backtraceCapacity := gbl_backtraceCapacity s;
     gbl_backtraceSymbols := gbl_backtraceSymbols s;
     gbl_backtraceDoneFlag := gbl_backtraceDoneFlag s;
     ThreadList := ThreadList s; sigtable := sigtable s; fds := fds s;
     streams := streams s; pending := pending s;
     malloc_results := malloc_results s; clock := clock s;
     sent := sent s; debug_trace := debug_trace s;
     emitted := emitted s |}.

Definition set_gbl_fd (v : Z) (s : State) : State :=
  {| gbl_params := gbl_params s; gbl_fd := v;
     gbl_backtraceEntries := gbl_backtraceEntries s;
     gbl_backtraceBuffer := gbl_backtraceBuffer s;
     gbl_backtraceCapacity := gbl_backtraceCapacity s;
     gbl_backtraceSymbols := gbl_backtraceSymbols s;
     gbl_backtraceDoneFlag := gbl_backtraceDoneFlag s;
     ThreadList := ThreadList s; sigtable := sigtable s; fds := fds s;
     streams := streams s; pending := pending s;
     malloc_results := malloc_results s; clock := clock s;
     sent := sent s; debug_trace := debug_trace s;
     emitted := emitted s |}.

(** The three cells [backtrace] (and [malloc] in [eCrash_Init]) write. *)
Definition set_backtrace (entries : Z) (buffer : list Z) (s : State) : State :=
  {| gbl_params := gbl_params s; gbl_fd := gbl_fd s;
     gbl_backtraceEntries := entries;
     gbl_backtraceBuffer := buffer;
     gbl_backtraceCapacity := gbl_backtraceCapacity s;
     gbl_backtraceSymbols := gbl_backtraceSymbols s;
     gbl_backtraceDoneFlag := gbl_backtraceDoneFlag s;
     ThreadList := ThreadList s; sigtable := sigtable s; fds := fds s;
     streams := streams s; pending := pending s;
     malloc_results := malloc_results s; clock := clock s;
     sent := sent s; debug_trace := debug_trace s;
     emitted := emitted s |}.

Definition set_gbl_backtraceCapacity (v : Z) (s : State) : State :=
  {| gbl_params := gbl_params s; gbl_fd := gbl_fd s;
     gbl_backtraceEntries := gbl_backtraceEntries s;
     gbl_backtraceBuffer := gbl_backtraceBuffer s;
     gbl_backtraceCapacity := v;
     gbl_backtraceSymbols := gbl_backtraceSymbols s;
     gbl_backtraceDoneFlag := gbl_backtraceDoneFlag s;
     ThreadList := ThreadList s; sigtable := sigtable s; fds := fds s;
     streams := streams s; pending := pending s;
     malloc_results := malloc_results s; clock := clock s;
     sent := sent s; debug_trace := debug_trace s;
     emitted := emitted s |}.

Definition set_gbl_backtraceSymbols (v : option (list string)) (s : State) : State :=
  {| gbl_params := gbl_params s; gbl_fd := gbl_fd s;
     gbl_backtraceEntries := gbl_backtraceEntries s;
     gbl_backtraceBuffer := gbl_backtraceBuffer s;
     gbl_backtraceCapacity := gbl_backtraceCapacity s;
     gbl_backtraceSymbols := v;
     gbl_backtraceDoneFlag := gbl_backtraceDoneFlag s;
     ThreadList := ThreadList s; sigtable := sigtable s; fds := fds s;
     streams := streams s; pending := pending s;
     malloc_results := malloc_results s; clock := clock s;
     sent := sent s; debug_trace := debug_trace s;
     emitted := emitted s |}.

Definition set_gbl_backtraceDoneFlag (v : Z) (s : State) : State :=
  {| gbl_params := gbl_params s; gbl_fd := gbl_fd s;
     gbl_backtraceEntries := gbl_backtraceEntries s;
     gbl_backtraceBuffer := gbl_backtraceBuffer s;
     gbl_backtraceCapacity := gbl_backtraceCapacity s;
     gbl_backtraceSymbols := gbl_backtraceSymbols s;
     gbl_backtraceDoneFlag := v;
     ThreadList := ThreadList s; sigtable := sigtable s; fds := fds s;
     streams := streams s; pending := pending s;
     malloc_results := malloc_results s; clock := clock s;
     sent := sent s; debug_trace := debug_trace s;
     emitted := emitted s |}.

Definition set_ThreadList (v : list ThreadListNode) (s : State) : State :=
  {| gbl_params := gbl_params s; gbl_fd := gbl_fd s;
     gbl_backtraceEntries := gbl_backtraceEntries s;
     gbl_backtraceBuffer := gbl_backtraceBuffer s;
     gbl_backtraceCapacity := gbl_backtraceCapacity s;
     gbl_backtraceSymbols := gbl_backtraceSymbols s;
     gbl_backtraceDoneFlag := gbl_backtraceDoneFlag s;
     ThreadList := v; sigtable := sigtable s; fds := fds s;
     streams := streams s; pending := pending s;
     malloc_results := malloc_results s; clock := clock s;
     sent := sent s; debug_trace := debug_trace s;
     emitted := emitted s |}.

Definition set_sigtable (v : Z -> handler) (s : State) : State :=
  {| gbl_params := gbl_params s; gbl_fd := gbl_fd s;
     gbl_backtraceEntries := gbl_backtraceEntries s;
     gbl_backtraceBuffer := gbl_backtraceBuffer s;
     gbl_backtraceCapacity := gbl_backtraceCapacity s;
     gbl_backtraceSymbols := gbl_backtraceSymbols s;
     gbl_backtraceDoneFlag := gbl_backtraceDoneFlag s;
     ThreadList := ThreadList s; sigtable := v; fds := fds s;
     streams := streams s; pending := pending s;
     malloc_results := malloc_results s; clock := clock s;
     sent := sent s; debug_trace := debug_trace s;
     emitted := emitted s |}.

Definition set_fds (v : Z -> option channel) (s : State) : State :=
  {| gbl_params := gbl_params s; gbl_fd := gbl_fd s;
     gbl_backtraceEntries := gbl_backtraceEntries s;
     gbl_backtraceBuffer := gbl_backtraceBuffer s;
     gbl_backtraceCapacity := gbl_backtraceCapacity s;
     gbl_backtraceSymbols := gbl_backtraceSymbols s;
     gbl_backtraceDoneFlag := gbl_backtraceDoneFlag s;
     ThreadList := ThreadList s; sigtable := sigtable s; fds := v;
     streams := streams s; pending := pending s;
     malloc_results := malloc_results s; clock := clock s;
     sent := sent s; debug_trace := debug_trace s;
     emitted := emitted s |}.

Definition set_streams (v : Z -> option channel) (s : State) : State :=
  {| gbl_params := gbl_params s; gbl_fd := gbl_fd s;
     gbl_backtraceEntries := gbl_backtraceEntries s;
     gbl_backtraceBuffer := gbl_backtraceBuffer s;
     gbl_backtraceCapacity := gbl_backtraceCapacity s;
     gbl_backtraceSymbols := gbl_backtraceSymbols s;
     gbl_backtraceDoneFlag := gbl_backtraceDoneFlag s;
     ThreadList := ThreadList s; sigtable := sigtable s; fds := fds s;
     streams := v; pending := pending s;
     malloc_results := malloc_results s; clock := clock s;
     sent := sent s; debug_trace := debug_trace s;
     emitted := emitted s |}.

Definition set_pending (v : list (pthread_t * Z * nat)) (s : State) : State :=
  {| gbl_params := gbl_params s; gbl_fd := gbl_fd s;
     gbl_backtraceEntries := gbl_backtraceEntries s;
     gbl_backtraceBuffer := gbl_backtraceBuffer s;
     gbl_backtraceCapacity := gbl_backtraceCapacity s;
     gbl_backtraceSymbols := gbl_backtraceSymbols s;
     gbl_backtraceDoneFlag := gbl_backtraceDoneFlag s;
     ThreadList := ThreadList s; sigtable := sigtable s; fds := fds s;
     streams := streams s; pending := v;
     malloc_results := malloc_results s; clock := clock s;
     sent := sent s; debug_trace := debug_trace s;
     emitted := emitted s |}.

Definition set_malloc_results (v : list bool) (s : State) : State :=
  {| gbl_params := gbl_params s; gbl_fd := gbl_fd s;
     gbl_backtraceEntries := gbl_backtraceEntries s;
     gbl_backtraceBuffer := gbl_backtraceBuffer s;
     gbl_backtraceCapacity := gbl_backtraceCapacity s;
     gbl_backtraceSymbols := gbl_backtraceSymbols s;
     gbl_backtraceDoneFlag := gbl_backtraceDoneFlag s;
     ThreadList := ThreadList s; sigtable := sigtable s; fds := fds s;
     streams := streams s; pending := pending s;
     malloc_results := v; clock := clock s;
     sent := sent s; debug_trace := debug_trace s;
     emitted := emitted s |}.

Definition set_clock (v : nat) (s : State) : State :=
  {| gbl_params := gbl_params s; gbl_fd := gbl_fd s;
     gbl_backtraceEntries := gbl_backtraceEntries s;
     gbl_backtraceBuffer := gbl_backtraceBuffer s;
     gbl_backtraceCapacity := gbl_backtraceCapacity s;
     gbl_backtraceSymbols := gbl_backtraceSymbols s;
     gbl_backtraceDoneFlag := gbl_backtraceDoneFlag s;
     ThreadList := ThreadList s; sigtable := sigtable s; fds := fds s;
     streams := streams s; pending := pending s;
     malloc_results := malloc_results s; clock := v;
     sent := sent s; debug_trace := debug_trace s;
     emitted := emitted s |}.

Definition set_sent (v : list (pthread_t * Z)) (s : State) : State :=
  {| gbl_params := gbl_params s; gbl_fd := gbl_fd s;
     gbl_backtraceEntries := gbl_backtraceEntries s;
     gbl_backtraceBuffer := gbl_backtraceBuffer s;
     gbl_backtraceCapacity := gbl_backtraceCapacity s;
     gbl_backtraceSymbols := gbl_backtraceSymbols s;
     gbl_backtraceDoneFlag := gbl_backtraceDoneFlag s;
     ThreadList := ThreadList s; sigtable := sigtable s; fds := fds s;
     streams := streams s; pending := pending s;
     malloc_results := malloc_results s; clock := clock s;
     sent := v; debug_trace := debug_trace s;
     emitted := emitted s |}.

Definition set_debug_trace (v : list (Z * string)) (s : State) : State :=
  {| gbl_params := gbl_params s; gbl_fd := gbl_fd s;
     gbl_backtraceEntries := gbl_backtraceEntries s;
     gbl_backtraceBuffer := gbl_backtraceBuffer s;
     gbl_backtraceCapacity := gbl_backtraceCapacity s;
     gbl_backtraceSymbols := gbl_backtraceSymbols s;
     gbl_backtraceDoneFlag := gbl_backtraceDoneFlag s;
     ThreadList := ThreadList s; sigtable := sigtable s; fds := fds s;
     streams := streams s; pending := pending s;
     malloc_results := malloc_results s; clock := clock s;
     sent := sent s; debug_trace := v;
     emitted := emitted s |}.

Definition set_emitted (v : list printf_call) (s : State) : State :=
  {| gbl_params := gbl_params s; gbl_fd := gbl_fd s;
     gbl_backtraceEntries := gbl_backtraceEntries s;
     gbl_backtraceBuffer := gbl_backtraceBuffer s;
     gbl_backtraceCapacity := gbl_backtraceCapacity s;
     gbl_backtraceSymbols := gbl_backtraceSymbols s;
     gbl_backtraceDoneFlag := gbl_backtraceDoneFlag s;
     ThreadList := ThreadList s; sigtable := sigtable s; fds := fds s;
     streams := streams s; pending := pending s;
     malloc_results := malloc_results s; clock := clock s;
     sent := sent s; debug_trace := debug_trace s;
     emitted := v |}.

(** Point update of a table indexed by a number. *)
Definition upd {A : Type} (f : Z -> A) (k : Z) (v : A) : Z -> A :=
  fun k' => if k' =? k then v else f k'.

(** Modelled from the spec: the macro [DPRINTF(level, format, ...)] of
    eCrash.h, the log at a verbosity level.  The trace keeps the level and
    the format of every use, whatever the configured level lets through. *)
Definition DPRINTF (level : Z) (format : string) (s : State) : State :=
  set_debug_trace (debug_trace s ++ [(level, format)]) s.

(** Field updates of [eCrashParameters]. *)
Definition with_filename (v : option string) (p : eCrashParameters) :=
  {| filename := v; filep := filep p; fd := fd p; debugLevel := debugLevel p;
     dumpAllThreads := dumpAllThreads p; maxStackDepth := maxStackDepth p;
     defaultBacktraceSignal := defaultBacktraceSignal p;
     threadWaitTime := threadWaitTime p;
     useBacktraceSymbols := useBacktraceSymbols p;
     symbolTable := symbolTable p; signals := signals p |}.

Definition with_filep (v : option Z) (p : eCrashParameters) :=
  {| filename := filename p; filep := v; fd := fd p; debugLevel := debugLevel p;
     dumpAllThreads := dumpAllThreads p; maxStackDepth := maxStackDepth p;
     defaultBacktraceSignal := defaultBacktraceSignal p;
     threadWaitTime := threadWaitTime p;
     useBacktraceSymbols := useBacktraceSymbols p;
     symbolTable := symbolTable p; signals := signals p |}.

Definition with_fd (v : Z) (p : eCrashParameters) :=
  {| filename := filename p; filep := filep p; fd := v; debugLevel := debugLevel p;
     dumpAllThreads := dumpAllThreads p; maxStackDepth := maxStackDepth p;
     defaultBacktraceSignal := defaultBacktraceSignal p;
     threadWaitTime := threadWaitTime p;
     useBacktraceSymbols := useBacktraceSymbols p;
     symbolTable := symbolTable p; signals := signals p |}.

Definition with_debugLevel (v : Z) (p : eCrashParameters) :=
  {| filename := filename p; filep := filep p; fd := fd p; debugLevel := v;
     dumpAllThreads := dumpAllThreads p; maxStackDepth := maxStackDepth p;
     defaultBacktraceSignal := defaultBacktraceSignal p;
     threadWaitTime := threadWaitTime p;
     useBacktraceSymbols := useBacktraceSymbols p;
     symbolTable := symbolTable p; signals := signals p |}.

Definition with_maxStackDepth (v : Z) (p : eCrashParameters) :=
  {| filename := filename p; filep := filep p; fd := fd p; debugLevel := debugLevel p;
     dumpAllThreads := dumpAllThreads p; maxStackDepth := v;
     defaultBacktraceSignal := defaultBacktraceSignal p;
     threadWaitTime := threadWaitTime p;
     useBacktraceSymbols := useBacktraceSymbols p;
     symbolTable := symbolTable p; signals := signals p |}.

Definition with_defaultBacktraceSignal (v : Z) (p : eCrashParameters) :=
  {| filename := filename p; filep := filep p; fd := fd p; debugLevel := debugLevel p;
     dumpAllThreads := dumpAllThreads p; maxStackDepth := maxStackDepth p;
     defaultBacktraceSignal := v;
     threadWaitTime := threadWaitTime p;
     useBacktraceSymbols := useBacktraceSymbols p;
     symbolTable := symbolTable p; signals := signals p |}.

Definition with_threadWaitTime (v : Z) (p : eCrashParameters) :=
  {| filename := filename p; filep := filep p; fd := fd p; debugLevel := debugLevel p;
     dumpAllThreads := dumpAllThreads p; maxStackDepth := maxStackDepth p;
     defaultBacktraceSignal := defaultBacktraceSignal p;
     threadWaitTime := v;
     useBacktraceSymbols := useBacktraceSymbols p;
     symbolTable := symbolTable p; signals := signals p |}.

(* ================================================================== *)
(** ** libc and the kernel, as far as eCrash.c uses them *)

(** [signal(signo, handler)]: installs [handler] and returns the previous
    disposition; fails with [SIG_ERR], changing nothing, for a signal that
    cannot be caught or when [handler] is [SIG_ERR]. *)
Definition signal (signo : Z) (handler : sighandler_t) (s : State)
  : sighandler_t * State :=
  match handler with
  | Handler f =>
      if catchable signo
      then (Handler (sigtable s signo), set_sigtable (upd (sigtable s) signo f) s)
      else (SIG_ERR, s)
  | SIG_ERR => (SIG_ERR, s)
  end.

(** [malloc]: the next scripted result; an exhausted script succeeds. *)
Definition malloc (s : State) : bool * State :=
  match malloc_results s with
  | [] => (true, s)
  | r :: rest => (r, set_malloc_results rest s)
  end.

(** The bytes of [s] from position [n] on ([&s[n]]). *)
Fixpoint string_from (n : nat) (s : string) : string :=
  match n, s with
  | O, _ => s
  | S n', String _ rest => string_from n' rest
  | S _, EmptyString => EmptyString
  end.

(** One [write] on a channel: the script's next result [r] says how many of
    the [count] bytes offered are taken (never more than [count]); a result
    below 1 takes none.  A closed channel reports [-1]. *)
Definition chan_write (buf : string) (count : Z) (c : channel) : Z * channel :=
  if negb (chan_open c) then (-1, c)
  else
    let r := match chan_script c with [] => count | r :: _ => r end in
    let n := Z.min r count in
    let taken := if n <? 1 then "" else substring 0 (Z.to_nat n) buf in
    (n, {| chan_script := tl (chan_script c);
           chan_received := (chan_received c ++ taken)%string;
           chan_open := true |}).

Definition chan_close (c : channel) : channel :=
  {| chan_script := chan_script c; chan_received := chan_received c;
     chan_open := false |}.

(** [write(fd, buf, count)]. *)
Definition write (d : Z) (buf : string) (count : Z) (s : State) : Z * State :=
  match fds s d with
  | None => (-1, s)
  | Some c =>
      let (n, c') := chan_write buf count c in
      (n, set_fds (upd (fds s) d (Some c')) s)
  end.

(** [fwrite(buf, size, 1, stream)] followed by [fflush(stream)]: the number
    of whole items written, 1 or 0; an item of size 0 counts as none. *)
Definition fwrite (buf : string) (size : Z) (stream : Z) (s : State) : Z * State :=
  match streams s stream with
  | None => (0, s)
  | Some c =>
      let (n, c') := chan_write buf size c in
      ((if (0 <? size) && (n =? size) then 1 else 0),
       set_streams (upd (streams s) stream (Some c')) s)
  end.

Definition close (d : Z) (s : State) : State :=
  match fds s d with
  | None => s
  | Some c => set_fds (upd (fds s) d (Some (chan_close c))) s
  end.

Definition fclose (stream : Z) (s : State) : State :=
  match streams s stream with
  | None => s
  | Some c => set_streams (upd (streams s) stream (Some (chan_close c))) s
  end.

(** *** Signals and the end of the process *)

(** What a signal does to a process that has installed nothing for it. *)
Inductive action := Terminate | Ignore | Stop | Continue.

(** The default actions of Linux: SIGCHLD, SIGURG and SIGWINCH are
    ignored, SIGCONT continues, SIGSTOP, SIGTSTP, SIGTTIN and SIGTTOU stop
    the process, every other signal terminates it. *)
Definition default_action (signo : Z) : action :=
  if (signo =? 17) || (signo =? 23) || (signo =? 28) then Ignore
  else if signo =? 18 then Continue
  else if (signo =? SIGSTOP) || (signo =? 20) || (signo =? 21) || (signo =? 22)
  then Stop
  else Terminate.

(** How the report can come to its end: [crash_handler] reaches its
    [exit]; or a signal it sent terminates or stops the process; or such a
    signal is taken by a handler other than [bt_handler] ([crash_handler]
    once more, or a handler of the application), which this development
    does not follow. *)
Inductive ending :=
  | Exited (status : Z)
  | Killed (signo : Z)
  | Stopped (signo : Z)
  | Diverted (f : handler).

(** A step of the report either leaves the coordinator running or is
    the end of it. *)
Inductive run :=
  | Running (s : State)
  | Over (e : ending) (s : State).

Definition state_of (r : run) : State :=
  match r with
  | Running s => s
  | Over _ s => s
  end.

Definition and_then (r : run) (k : State -> run) : run :=
  match r with
  | Running s => k s
  | Over e s => Over e s
  end.

(** *** printf conversions *)

(** The line feed and the double quote of the C string literals. *)
Definition LF : string := String "010"%char EmptyString.
Definition DQ : string := String "034"%char EmptyString.

Definition decimal (z : Z) : string :=
  DecimalString.NilZero.string_of_int (Z.to_int z).

Definition hexadecimal (z : Z) : string :=
  HexadecimalString.NilZero.string_of_uint (N.to_hex_uint (Z.to_N z)).

(** [%02d] *)
Definition conv_02d (z : Z) : string :=
  let t := decimal z in
  if (String.length t <? 2)%nat then ("0" ++ t)%string else t.

(** [%u]: the argument read as an [unsigned int]. *)
Definition conv_u (z : Z) : string := decimal (z mod 2 ^ 32).

(** [%p], as glibc prints it. *)
Definition conv_p (z : Z) : string :=
  if to_ulong z =? 0 then "(nil)" else ("0x" ++ hexadecimal (to_ulong z))%string.

(** The text a format and its arguments expand to, for the conversions
    eCrash.c's [outputPrintf] calls use: [%s], [%d], [%02d], [%u], [%p].
    [None] when an argument is missing or of the wrong kind. *)
Fixpoint format_text (fmt : string) (args : list printf_arg) : option string :=
  match fmt with
  | EmptyString => Some EmptyString
  | String c rest =>
      if (c =? "%")%char then
        match rest with
        | String k rest1 =>
            if (k =? "s")%char then
              match args with
              | AStr t :: args' =>
                  option_map (String.append t) (format_text rest1 args')
              | _ => None
              end
            else if (k =? "d")%char then
              match args with
              | ANum z :: args' =>
                  option_map (String.append (decimal z)) (format_text rest1 args')
              | _ => None
              end
            else if (k =? "u")%char then
              match args with
              | ANum z :: args' =>
                  option_map (String.append (conv_u z)) (format_text rest1 args')
              | _ => None
              end
            else if (k =? "p")%char then
              match args with
              | ANum z :: args' =>
                  option_map (String.append (conv_p z)) (format_text rest1 args')
              | _ => None
              end
            else if (k =? "0")%char then
              match rest1 with
              | String k2 (String k3 rest3) =>
                  if ((k2 =? "2") && (k3 =? "d"))%char then
                    match args with
                    | ANum z :: args' =>
                        option_map (String.append (conv_02d z))
                                   (format_text rest3 args')
                    | _ => None
                    end
                  else None
              | _ => None
              end
            else None
        | EmptyString => None
        end
      else option_map (String c) (format_text rest args)
  end.

(** [vsnprintf(line, size, format, ap)]: the length the whole text has
    ([-1] on error) and the line, cut to [size - 1] bytes. *)
Definition vsnprintf (size : Z) (fmt : string) (args : list printf_arg)
  : Z * string :=
  match format_text fmt args with
  | None => (-1, "")
  | Some t => (Z.of_nat (String.length t), substring 0 (Z.to_nat (size - 1)) t)
  end.

(* ================================================================== *)
(** ** Calls that can fault *)

(** [eCrash_Init] reads through pointers the caller supplies.  Its model
    runs in a state monad whose result is either a return or a fault. *)
Inductive fault :=
  | NullDereference   (* a read through a NULL pointer *)
  | ArrayOverrun.     (* a read past the end of an array *)

Inductive outcome (A : Type) :=
  | Returns (a : A) (s : State)
  | Faults (f : fault) (s : State).

Arguments Faults {A} f s.

Definition M (A : Type) : Type := State -> outcome A.

Definition ret {A : Type} (a : A) : M A := fun s => Returns a s.

Definition bind {A B : Type} (m : M A) (k : A -> M B) : M B :=
  fun s =>
    match m s with
    | Returns a s' => k a s'
    | Faults f s' => Faults f s'
    end.

Definition modify (f : State -> State) : M unit := fun s => Returns tt (f s).

Definition gets {A : Type} (f : State -> A) : M A := fun s => Returns (f s) s.

Definition raise {A : Type} (f : fault) : M A := fun s => Faults f s.

(** Reading through a pointer: [*p], [p->field]. *)
Definition deref {A : Type} (p : option A) : M A :=
  match p with
  | Some a => ret a
  | None => raise NullDereference
  end.

Notation "x <- m ;; k" := (bind m (fun x => k))
  (at level 61, m at next level, right associativity).
Notation "m ;;; k" := (bind m (fun _ => k))
  (at level 61, right associativity).

(* ================================================================== *)
(** ** eCrash.c *)

(** The formats of the frame lines of [outputGlobalBacktrace], of the two
    thread lines of [outputBacktraceThreads], of the separator and banner
    lines, and of the complaint of [ValidateSymbolTable]. *)
Definition fmt_frame_symbol : string := ("*      Frame %02d: %s+%u" ++ LF)%string.
Definition fmt_frame_pointer : string := ("*      Frame %02d: %p" ++ LF)%string.
Definition fmt_frame_text : string := ("*      Frame %02d: %s" ++ LF)%string.
Definition fmt_not_sorted : string :=
  ("Error: symbol table is not sorted (last=%p, current=%p)" ++ LF)%string.
Definition fmt_separator : string := ("*" ++ LF)%string.
Definition fmt_stars : string :=
  ("*********************************************************" ++ LF)%string.
Definition fmt_thread_header : string :=
  ("*  Backtrace of " ++ DQ ++ "%s" ++ DQ ++ " (0x%p)" ++ LF)%string.
Definition fmt_thread_error : string :=
  ("*  Error: unable to get backtrace of " ++ DQ ++ "%s" ++ DQ ++ " (0x%p)" ++ LF)%string.

Section eCrash_c.

Variable h : eCrash_h.
Variable env : Env.

(** *** Thread list *)

(** [addThreadToList]: the node is allocated first; a failed allocation
    returns -1 and leaves the list alone.  The new node becomes the head. *)
Definition addThreadToList (name : string) (t : pthread_t) (signo : Z)
    (old_handler : sighandler_t) (s : State) : Z * State :=
  let (node_ok, s1) := malloc s in
  if negb node_ok then (-1, s1)
  else
    let s2 := DPRINTF (ECRASH_DEBUG_VERBOSE h) ("Adding thread 0x%p (%s)" ++ LF)%string s1 in
    let node := {| threadName := name; thread := t;
                   backtraceSignal := signo; oldHandler := old_handler |} in
    (0, set_ThreadList (node :: ThreadList s2) s2).

(** The search loop of [removeThreadFromList]: unlinks the first node whose
    thread is [t] and returns it ([Removed]) with the list that is left. *)
Fixpoint removeThreadFromList_loop (t : pthread_t) (Probe : list ThreadListNode)
  : option ThreadListNode * list ThreadListNode :=
  match Probe with
  | [] => (None, [])
  | node :: Next =>
      if thread node =? t then (Some node, Next)
      else
        let (Removed, Next') := removeThreadFromList_loop t Next in
        (Removed, node :: Next')
  end.

Definition removeThreadFromList (t : pthread_t) (s : State) : Z * State :=
  let s1 := DPRINTF (ECRASH_DEBUG_VERBOSE h)
                    ("Removing thread 0x%p from list . . ." ++ LF)%string s in
  let (Removed, rest) := removeThreadFromList_loop t (ThreadList s1) in
  let s2 := set_ThreadList rest s1 in
  match Removed with
  | Some node =>
      let s3 := DPRINTF (ECRASH_DEBUG_VERBOSE h) ("   Found %s -- removing" ++ LF)%string s2 in
      (* Reset the signal handler *)
      let s4 := snd (signal (backtraceSignal node) (oldHandler node) s3) in
      (0, s4)
  | None =>
      (-1, DPRINTF (ECRASH_DEBUG_VERBOSE h) ("   Not Found" ++ LF)%string s2)
  end.

(** *** Output *)

(** The loop of [blockingWrite].  [offset] is passed on as the source
    leaves it; every round that goes on lowers [bytes] by at least 1, so
    [bytes] rounds of fuel are never used up. *)
Fixpoint blockingWrite_loop (fuel : nat) (str : string)
    (offset bytes totalWritten d : Z) (s : State) : Z * State :=
  match fuel with
  | O => (totalWritten, s)
  | S fuel' =>
      if 0 <? bytes then
        let (bytesWritten, s1) :=
          write d (string_from (Z.to_nat offset) str) bytes s in
        if bytesWritten <? 1 then (totalWritten, s1)
        else blockingWrite_loop fuel' str offset (bytes - bytesWritten)
                                (totalWritten + bytesWritten) d s1
      else (totalWritten, s)
  end.

Definition blockingWrite (str : string) (bytes : Z) (d : Z) (s : State)
  : Z * State :=
  blockingWrite_loop (Z.to_nat bytes) str 0 bytes 0 d s.

(** [outputPrintf]: the call is recorded in [emitted], formatted, and, if
    the text fits the line buffer, written to each destination in turn. *)
Definition outputPrintf (format : string) (args : list printf_arg) (s : State)
  : Z * State :=
  let s := set_emitted
             (emitted s ++ [{| call_format := format; call_args := args |}]) s in
  let return_value := 0 in
  let (bytesInLine, outputLine) := vsnprintf (MAX_LINE_LEN h - 1) format args in
  if (-1 <? bytesInLine) && (bytesInLine <? MAX_LINE_LEN h - 1) then
    (* append to our file -- hopefully it's been opened *)
    let '(return_value, s) :=
      match filename (gbl_params s) with
      | Some _ =>
          if negb (gbl_fd s =? -1) then
            let (w, s') := blockingWrite outputLine bytesInLine (gbl_fd s) s in
            if negb (w =? 0) then (-2, s') else (return_value, s')
          else (return_value, s)
      | None => (return_value, s)
      end in
    (* Write to our file pointer *)
    let '(return_value, s) :=
      match filep (gbl_params s) with
      | Some stream =>
          let (items, s') := fwrite outputLine bytesInLine stream s in
          if negb (items =? 1) then (-3, s') else (return_value, s')
      | None => (return_value, s)
      end in
    (* Write to our fd *)
    let '(return_value, s) :=
      if negb (fd (gbl_params s) =? -1) then
        let (w, s') := blockingWrite outputLine bytesInLine (fd (gbl_params s)) s in
        if negb (w =? 0) then (-4, s') else (return_value, s')
      else (return_value, s) in
    (return_value, s)
  else
    (* We overran our string. *)
    (-1, s).

(** [outputPrintf] for its effect; no caller looks at the status. *)
Definition emit (format : string) (args : list printf_arg) (s : State) : State :=
  snd (outputPrintf format args s).


Definition outputFini (s : State) : State :=
  let s := if -1 <? gbl_fd s then close (gbl_fd s) s else s in
  let s := match filep (gbl_params s) with
           | Some stream => fclose stream s
           | None => s
           end in
  let s := if -1 <? fd (gbl_params s) then close (fd (gbl_params s)) s else s in
  (* Just in case someone tries to call outputPrintf after outputFini *)
  let s := set_gbl_fd (-1) s in
  set_gbl_params (with_filep None (with_fd (-1) (gbl_params s))) s.

(** *** Symbols *)

(** The scan of [lookupClosestSymbol]: [last] is the entry seen before the
    first one whose address is above [addr].  (The function's debug
    tracing is left out: it is the only effect it has.) *)
Fixpoint lookupClosestSymbol_loop (syms : list eCrashSymbol) (addr : Z)
    (last : option eCrashSymbol) : option eCrashSymbol :=
  match syms with
  | [] => last
  | sym :: rest =>
      if addr <? address sym then last
      else lookupClosestSymbol_loop rest addr (Some sym)
  end.

Definition lookupClosestSymbol (table : eCrashSymbolTable) (addr : Z)
  : option eCrashSymbol :=
  lookupClosestSymbol_loop (symbols table) addr None.

(** *** Backtraces *)

(** libc's [backtrace(void **buffer, int size)]: the innermost [size]
    return addresses of the calling thread's stack.  The argument arrives
    as an [int]; there is nothing to store for a size of 0 or less. *)
Definition backtrace (stack : list Z) (size : Z) : list Z :=
  firstn (Z.to_nat (to_int size)) stack.

(** [createGlobalBacktrace], run by thread [self]. *)
Definition createGlobalBacktrace (self : pthread_t) (s : State) : State :=
  let cells := backtrace (env_stack env self) (maxStackDepth (gbl_params s)) in
  let s := set_backtrace (Z.of_nat (List.length cells)) cells s in
  match symbolTable (gbl_params s) with
  | None =>
      if useBacktraceSymbols (gbl_params s)
      then set_gbl_backtraceSymbols (env_backtrace_symbols env cells) s
      else s
  | Some _ => s
  end.

(** The body of the loop of [outputGlobalBacktrace], for frame [i]. *)
Definition outputFrame (i : Z) (s : State) : State :=
  let cell := nth (Z.to_nat i) (gbl_backtraceBuffer s) 0 in
  match symbolTable (gbl_params s) with
  | Some table =>
      match lookupClosestSymbol table cell with
      | Some symbol =>
          emit fmt_frame_symbol
               [ANum i; AStr (function symbol); ANum (cell - address symbol)] s
      | None =>
          emit fmt_frame_pointer [ANum i; ANum cell] s
      end
  | None =>
      match gbl_backtraceSymbols s with
      | Some lines =>
          emit fmt_frame_text [ANum i; AStr (nth (Z.to_nat i) lines "")] s
      | None =>
          emit fmt_frame_pointer [ANum i; ANum cell] s
      end
  end.




(** [bt_handler], run by thread [t] when its backtrace signal arrives. *)
Definition bt_handler (t : pthread_t) (s : State) : State :=
  set_gbl_backtraceDoneFlag 1 (createGlobalBacktrace t s).

(** *** The other threads *)

(** Thread [t] takes signal [signo]; the disposition in force decides what
    happens (SIGKILL and SIGSTOP always have their default action). *)
Definition deliver (t : pthread_t) (signo : Z) (s : State) : run :=
  match (if catchable signo then sigtable s signo else SIG_DFL) with
  | H_bt_handler => Running (bt_handler t s)
  | SIG_IGN => Running s
  | SIG_DFL =>
      match default_action signo with
      | Terminate => Over (Killed signo) s
      | Stop => Over (Stopped signo) s
      | Ignore | Continue => Running s
      end
  | H_crash_handler => Over (Diverted H_crash_handler) s
  | H_other id => Over (Diverted (H_other id)) s
  end.

(** [pthread_kill(t, signo)], for a thread [t] of the process.  Signal 0
    sends nothing, and a number that is out of range or one of the two
    libc keeps for itself is refused.  SIGKILL and SIGSTOP act at once.
    Any other signal is taken by [t] after its latency, the time until
    [t] runs with the signal unblocked: at once (so does the calling
    thread signalling itself), after some seconds ([pending]), or never. *)
Definition pthread_kill (t : pthread_t) (signo : Z) (s : State) : run :=
  let s := set_sent (sent s ++ [(t, signo)]) s in
  if (signo <? 1) || (NSIG <=? signo) || (signo =? 32) || (signo =? 33)
  then Running s
  else if (signo =? SIGKILL) || (signo =? SIGSTOP) then deliver t signo s
  else
    match env_latency env t with
    | None => Running s
    | Some O => deliver t signo s
    | Some (S d) => Running (set_pending (pending s ++ [(t, signo, S d)]) s)
    end.

(** One second passes: the signals that are due are taken, in the order
    they were sent; the others move one second closer. *)
Fixpoint run_pending (ps : list (pthread_t * Z * nat)) (s : State) : run :=
  match ps with
  | [] => Running s
  | (t, signo, d) :: rest =>
      match d with
      | O | S O => and_then (deliver t signo s) (run_pending rest)
      | S d' =>
          and_then (run_pending rest s)
                   (fun s' => Running (set_pending ((t, signo, d') :: pending s') s'))
      end
  end.

(** [sleep(1)]. *)
Definition sleep_1 (s : State) : run :=
  run_pending (pending s) (set_pending [] (set_clock (S (clock s)) s)).

(** The polling loop of [outputBacktraceThreads]: up to [n] checks of the
    flag, a second apart. *)
Fixpoint wait_for_flag (n : nat) (s : State) : run :=
  match n with
  | O => Running s
  | S n' =>
      if negb (gbl_backtraceDoneFlag s =? 0) then Running s
      else and_then (sleep_1 s) (wait_for_flag n')
  end.

(** The body of the loop of [outputBacktraceThreads], for node [probe]:
    first the flag is cleared, the thread signalled and the flag polled, *)
Definition rendezvous (probe : ThreadListNode) (s : State) : run :=
  let s := set_gbl_backtraceDoneFlag 0 s in
  and_then (pthread_kill (thread probe) (backtraceSignal probe) s)
           (fun s => wait_for_flag (Z.to_nat (threadWaitTime (gbl_params s))) s).





(** *** Initialisation *)

(** The loop of [ValidateSymbolTable].  [lastAddress] is compared with
    every address and handed on as the source leaves it. *)
Fixpoint ValidateSymbolTable_loop (syms : list eCrashSymbol)
    (lastAddress rc : Z) (s : State) : Z * State :=
  match syms with
  | [] => (rc, s)
  | sym :: rest =>
      let s := DPRINTF (ECRASH_DEBUG_VERBOSE h) ("%-30s %p" ++ LF)%string s in
      if to_ulong (address sym) <? lastAddress then
        let s := DPRINTF (ECRASH_DEBUG_ERROR h) fmt_not_sorted s in
        ValidateSymbolTable_loop rest lastAddress (-1) s
      else ValidateSymbolTable_loop rest lastAddress rc s
  end.

Definition ValidateSymbolTable (s : State) : Z * State :=
  match symbolTable (gbl_params s) with
  | None => (0, s)   (* Get out of here if the table is empty *)
  | Some table =>
      let s := DPRINTF (ECRASH_DEBUG_VERBOSE h)
                 ("Symbol Table Provided with %d symbols" ++ LF)%string s in
      ValidateSymbolTable_loop (symbols table) 0 0 s
  end.

(** The registration loop of [eCrash_Init] over the [signals] array: it
    stops at the first zero, and runs off the array if there is none. *)
Fixpoint install_crash_handlers (array : list Z) : M unit :=
  match array with
  | [] => raise ArrayOverrun
  | signo :: rest =>
      if signo =? 0 then ret tt
      else
        modify (DPRINTF (ECRASH_DEBUG_VERY_VERBOSE h)
                        ("   Catching signal[%d] %d" ++ LF)%string) ;;;
        modify (fun s => snd (signal signo (Handler H_crash_handler) s)) ;;;
        install_crash_handlers rest
  end.

(** [eCrash_Init].  The buffer is sized from [params->maxStackDepth] before
    anything else is done with [params]: the number of cells is the sum in
    [unsigned int].  The two allocations of this function ([malloc] for
    the buffer, [strdup] for the file name) are taken to succeed; the
    source does not check them. *)
Definition eCrash_Init (params : option eCrashParameters) : M Z :=
  modify (DPRINTF (ECRASH_DEBUG_VERY_VERBOSE h)
                  ("Init Starting params = %p" ++ LF)%string) ;;;
  (* Allocate our backtrace area *)
  depth <- deref (option_map maxStackDepth params) ;;
  modify (set_gbl_backtraceCapacity (to_uint (depth + 5))) ;;;
  status <-
    match params with
    | Some p =>
        (* Make ourselves a global copy of params. *)
        modify (set_gbl_params p) ;;;
        name <- deref (filename p) ;;          (* strdup(params->filename) *)
        modify (fun s => set_gbl_params (with_filename (Some name) (gbl_params s)) s) ;;;
        (* Set our defaults, if they weren't specified *)
        modify (fun s =>
          if maxStackDepth (gbl_params s) =? 0
          then set_gbl_params
                 (with_maxStackDepth (ECRASH_DEFAULT_STACK_DEPTH h) (gbl_params s)) s
          else s) ;;;
        modify (fun s =>
          if defaultBacktraceSignal (gbl_params s) =? 0
          then set_gbl_params
                 (with_defaultBacktraceSignal (ECRASH_DEFAULT_BACKTRACE_SIGNAL h)
                                              (gbl_params s)) s
          else s) ;;;
        modify (fun s =>
          if threadWaitTime (gbl_params s) =? 0
          then set_gbl_params
                 (with_threadWaitTime (ECRASH_DEFAULT_THREAD_WAIT_TIME h)
                                      (gbl_params s)) s
          else s) ;;;
        modify (fun s =>
          if debugLevel (gbl_params s) =? 0
          then set_gbl_params
                 (with_debugLevel (ECRASH_DEBUG_DEFAULT h) (gbl_params s)) s
          else s) ;;;
        (* Copy our symbol table *)
        modify (fun s =>
          match symbolTable (gbl_params s) with
          | Some _ =>
              let s := DPRINTF (ECRASH_DEBUG_VERBOSE h)
                         ("symbolTable @ %p -- %d symbols" ++ LF)%string s in
              snd (ValidateSymbolTable s)
          | None => s
          end) ;;;
        (* And, finally, register for our signals *)
        array <- gets (fun s => signals (gbl_params s)) ;;
        install_crash_handlers array ;;;
        ret 0
    | None =>
        modify (DPRINTF (ECRASH_DEBUG_ERROR h) ("   Error:  Null Params!" ++ LF)%string) ;;;
        ret (-1)
    end ;;
  modify (DPRINTF (ECRASH_DEBUG_VERY_VERBOSE h) ("Init Complete ret=%d" ++ LF)%string) ;;;
  ret status.

(** [eCrash_Uninit]: not implemented yet, says so and returns 0. *)
Definition eCrash_Uninit (s : State) : Z * State := (0, s).

(** [eCrash_RegisterThread], called by thread [self]. *)
Definition eCrash_RegisterThread (self : pthread_t) (name : string) (signo : Z)
    (s : State) : Z * State :=
  (* Register for our signal *)
  let signo := if signo =? 0 then defaultBacktraceSignal (gbl_params s) else signo in
  let (old_handler, s) := signal signo (Handler H_bt_handler) s in
  addThreadToList name self signo old_handler s.

(** [eCrash_UnregisterThread], called by thread [self]. *)
Definition eCrash_UnregisterThread (self : pthread_t) (s : State) : Z * State :=
  removeThreadFromList self s.

End eCrash_c.

(* ================================================================== *)
(** ** Vocabulary of the properties *)


(** Addresses never go down from one entry to the next. *)
Fixpoint ascending (syms : list eCrashSymbol) : bool :=
  match syms with
  | a :: (b :: _) as rest => (address a <=? address b) && ascending rest
  | _ => true
  end.

(** Some entry is followed by one with a strictly lower address. *)
Fixpoint has_descent (syms : list eCrashSymbol) : bool :=
  match syms with
  | a :: (b :: _) as rest => (address b <? address a) || has_descent rest
  | _ => false
  end.


(** The last capture put more addresses into the shared buffer than
    [eCrash_Init] allocated cells for. *)
Definition stores_past_end (s : State) : Prop :=
  gbl_backtraceCapacity s < gbl_backtraceEntries s.

(** The [signals] array holds its zero sentinel. *)
Definition terminated (array : list Z) : Prop := In 0 array.

(** The signal a registration uses. *)
Definition chosen_signal (signo : Z) (s : State) : Z :=
  if signo =? 0 then defaultBacktraceSignal (gbl_params s) else signo.

(** The calls a thread's section of the report is made of. *)
Definition thread_header (node : ThreadListNode) : printf_call :=
  {| call_format := fmt_thread_header;
     call_args := [AStr (threadName node); ANum (thread node)] |}.

Definition thread_error (node : ThreadListNode) : printf_call :=
  {| call_format := fmt_thread_error;
     call_args := [AStr (threadName node); ANum (thread node)] |}.

Definition separator : printf_call :=
  {| call_format := fmt_separator; call_args := [] |}.



Definition call (format : string) (args : list printf_arg) : printf_call :=
  {| call_format := format; call_args := args |}.




(** Threads registering one after the other: who, under which name, with
    which signal. *)
Fixpoint register_all (h : eCrash_h) (regs : list (pthread_t * string * Z))
    (s : State) : State :=
  match regs with
  | [] => s
  | (t, name, signo) :: rest =>
      register_all h rest (snd (eCrash_RegisterThread h t name signo s))
  end.

(** The text of a call, when its arguments fit its format. *)
Definition call_text (c : printf_call) : option string :=
  format_text (call_format c) (call_args c).

(** *** What reaches the destinations *)







(** What a call of [outputPrintf] puts on the line: its text, or nothing
    when the text does not fit the line buffer (or the arguments do not fit
    the format). *)
Definition line (h : eCrash_h) (c : printf_call) : string :=
  match call_text c with
  | Some t => if Z.of_nat (String.length t) <? MAX_LINE_LEN h - 1 then t else ""
  | None => ""
  end.



(** [s'] is [s] after steps that print nothing and leave the
    configuration, the thread list, the dispositions, the descriptors and
    the streams alone. *)
Definition quiet (s s' : State) : Prop :=
  emitted s' = emitted s /\ gbl_params s' = gbl_params s
  /\ gbl_fd s' = gbl_fd s /\ ThreadList s' = ThreadList s
  /\ sigtable s' = sigtable s /\ fds s' = fds s /\ streams s' = streams s.







(** The shared backtrace cells of [s'] are those of [s]. *)
Definition same_capture (s s' : State) : Prop :=
  gbl_backtraceBuffer s' = gbl_backtraceBuffer s
  /\ gbl_backtraceEntries s' = gbl_backtraceEntries s
  /\ gbl_backtraceSymbols s' = gbl_backtraceSymbols s.


(* ================================================================== *)
(** ** Instances for examples *)

(** A header: 256-byte lines, ten frames, SIGUSR2, ten seconds, and the
    debug levels 1 (very verbose), 2 (verbose), 5 (error, the default). *)
Definition sample_h : eCrash_h :=
  {| MAX_LINE_LEN := 256;
     ECRASH_DEFAULT_STACK_DEPTH := 10;
     ECRASH_DEFAULT_BACKTRACE_SIGNAL := 12;
     ECRASH_DEFAULT_THREAD_WAIT_TIME := 10;
     ECRASH_DEBUG_VERY_VERBOSE := 1;
     ECRASH_DEBUG_VERBOSE := 2;
     ECRASH_DEBUG_ERROR := 5;
     ECRASH_DEBUG_DEFAULT := 5 |}.

(** [gbl_params] as the loader zeroes it. *)
Definition zero_params : eCrashParameters :=
  {| filename := None; filep := None; fd := 0; debugLevel := 0;
     dumpAllThreads := false; maxStackDepth := 0;
     defaultBacktraceSignal := 0; threadWaitTime := 0;
     useBacktraceSymbols := false; symbolTable := None;
     signals := repeat 0 30 |}.

Definition fresh_channel (script : list Z) : channel :=
  {| chan_script := script; chan_received := ""; chan_open := true |}.

(** The process at start-up: the statics with their initialisers, every
    signal at its default, and descriptors 1, 2 and 3 open. *)
Definition boot : State :=
  {| gbl_params := zero_params; gbl_fd := -1;
     gbl_backtraceEntries := 0; gbl_backtraceBuffer := [];
     gbl_backtraceCapacity := 0; gbl_backtraceSymbols := None;
     gbl_backtraceDoneFlag := 0; ThreadList := [];
     sigtable := fun _ => SIG_DFL;
     fds := fun d => if (1 <=? d) && (d <=? 3) then Some (fresh_channel []) else None;
     streams := fun f => if f =? 1 then Some (fresh_channel []) else None;
     pending := []; malloc_results := []; clock := 0%nat; sent := [];
     debug_trace := []; emitted := [] |}.

(** Three threads: 1 answers at once, 2 after three seconds, 3 never.
    Opening a file yields descriptor 3. *)
Definition sample_env : Env :=
  {| env_open := fun _ _ => 3;
     env_stack := fun t => [4096 * t + 80; 4096 * t + 336; 592];
     env_latency := fun t =>
       if t =? 1 then Some 0%nat else if t =? 2 then Some 3%nat else None;
     env_backtrace_symbols := fun _ => None |}.

(** The table of the specification's example. *)
Definition sample_table : eCrashSymbolTable :=
  {| symbols := [ {| function := "f"; address := 256 |};
                  {| function := "g"; address := 512 |} ] |}.

(** What ecrash_test.c's [main] passes, with the three outputs on
    descriptor 3 (the file), stream 1 and descriptor 2. *)
Definition sample_params : eCrashParameters :=
  {| filename := Some "eCrash.out.filename"; filep := Some 1; fd := 2;
     debugLevel := 0; dumpAllThreads := true; maxStackDepth := 0;
     defaultBacktraceSignal := 0; threadWaitTime := 0;
     useBacktraceSymbols := false; symbolTable := Some sample_table;
     signals := [11; 4; 7; 6] ++ repeat 0 26 |}.

(** [boot] with descriptor [d] scripted. *)
Definition with_descriptor (d : Z) (script : list Z) (s : State) : State :=
  set_fds (upd (fds s) d (Some (fresh_channel script))) s.

(** A table that goes down: [g] at 512 before [f] at 256. *)
Definition descending_table : eCrashSymbolTable :=
  {| symbols := [ {| function := "g"; address := 512 |};
                  {| function := "f"; address := 256 |} ] |}.

(** A configuration that carries this table. *)
Definition descending_params : eCrashParameters :=
  {| filename := Some "eCrash.out.filename"; filep := None; fd := 2;
     debugLevel := 0; dumpAllThreads := false; maxStackDepth := 0;
     defaultBacktraceSignal := 0; threadWaitTime := 0;
     useBacktraceSymbols := false; symbolTable := Some descending_table;
     signals := [11; 0] |}.

(** Only the explicit descriptor, 2, is configured. *)
Definition descriptor_only : eCrashParameters := with_fd 2 zero_params.

(** The process of ecrash_test.c once [eCrash_Init] has returned. *)
Definition sample_state : State :=
  match eCrash_Init sample_h (Some sample_params) boot with
  | Returns _ s => s
  | Faults _ s => s
  end.

(** Threads 1, 2 and 3 register in this order, with the default signal. *)
Definition sample_registrations : list (pthread_t * string * Z) :=
  [(1, "Thread 1", 0); (2, "Thread 2", 0); (3, "Thread 3", 0)].

(** The nodes these registrations create. *)
Definition sample_node (t : pthread_t) (name : string) (old : handler)
  : ThreadListNode :=
  {| threadName := name; thread := t; backtraceSignal := 12;
     oldHandler := Handler old |}.

(** [sample_env] with a call stack of eight frames in every thread. *)
Definition deep_env : Env :=
  {| env_open := env_open sample_env;
     env_stack := fun t => map (fun k => 4096 * t + 16 * k) [1; 2; 3; 4; 5; 6; 7; 8];
     env_latency := env_latency sample_env;
     env_backtrace_symbols := env_backtrace_symbols sample_env |}.

(* ================================================================== *)
(** ** Vocabulary of the further properties *)

(** The signal numbers of the [signals] array in front of its zero. *)
Fixpoint before_sentinel (array : list Z) : list Z :=
  match array with
  | [] => []
  | signo :: rest => if signo =? 0 then [] else signo :: before_sentinel rest
  end.

(** Thread [t] has a node in the thread list. *)
Definition registered (t : pthread_t) (s : State) : Prop :=
  In t (map thread (ThreadList s)).

(** Threads unregistering one after the other. *)
Fixpoint unregister_all (h : eCrash_h) (ts : list pthread_t) (s : State) : State :=
  match ts with
  | [] => s
  | t :: rest => unregister_all h rest (snd (eCrash_UnregisterThread h t s))
  end.

(** The frame number a frame line starts with. *)
Definition frame_number (c : printf_call) : option Z :=
  match call_args c with
  | ANum i :: _ => Some i
  | _ => None
  end.

(** The last entry of a list of symbols, if it has one. *)
Definition last_symbol (syms : list eCrashSymbol) : option eCrashSymbol :=
  match rev syms with
  | [] => None
  | e :: _ => Some e
  end.

(** What [createGlobalBacktrace] captures in thread [t]. *)
Definition captured (env : Env) (t : pthread_t) (s : State) : list Z :=
  backtrace (env_stack env t) (maxStackDepth (gbl_params s)).

(** [sample_h] with a line buffer of eight bytes. *)
Definition narrow_h : eCrash_h :=
  {| MAX_LINE_LEN := 8;
     ECRASH_DEFAULT_STACK_DEPTH := ECRASH_DEFAULT_STACK_DEPTH sample_h;
     ECRASH_DEFAULT_BACKTRACE_SIGNAL := ECRASH_DEFAULT_BACKTRACE_SIGNAL sample_h;
     ECRASH_DEFAULT_THREAD_WAIT_TIME := ECRASH_DEFAULT_THREAD_WAIT_TIME sample_h;
     ECRASH_DEBUG_VERY_VERBOSE := ECRASH_DEBUG_VERY_VERBOSE sample_h;
     ECRASH_DEBUG_VERBOSE := ECRASH_DEBUG_VERBOSE sample_h;
     ECRASH_DEBUG_ERROR := ECRASH_DEBUG_ERROR sample_h;
     ECRASH_DEBUG_DEFAULT := ECRASH_DEBUG_DEFAULT sample_h |}.

(** The configuration with the defaults [eCrash_Init] fills in. *)
Definition with_defaults (h : eCrash_h) (p : eCrashParameters) : eCrashParameters :=
  let p := if maxStackDepth p =? 0
           then with_maxStackDepth (ECRASH_DEFAULT_STACK_DEPTH h) p else p in
  let p := if defaultBacktraceSignal p =? 0
           then with_defaultBacktraceSignal (ECRASH_DEFAULT_BACKTRACE_SIGNAL h) p
           else p in
  let p := if threadWaitTime p =? 0
           then with_threadWaitTime (ECRASH_DEFAULT_THREAD_WAIT_TIME h) p else p in
  if debugLevel p =? 0 then with_debugLevel (ECRASH_DEBUG_DEFAULT h) p else p.

(** The dispositions after [crash_handler] has been installed for the
    signals of the array, one [signal] call after the other. *)
Fixpoint crash_dispositions (array : list Z) (t : Z -> handler) : Z -> handler :=
  match array with
  | [] => t
  | signo :: rest =>
      if signo =? 0 then t
      else crash_dispositions rest
             (if catchable signo then upd t signo H_crash_handler else t)
  end.

(** The dispositions after [signal(signo, old)] has been called to put a
    saved handler back. *)
Definition restored (signo : Z) (old : sighandler_t) (t : Z -> handler)
  : Z -> handler :=
  match old with
  | Handler f => if catchable signo then upd t signo f else t
  | SIG_ERR => t
  end.

(** The sample process with threads 1, 2 and 3 registered. *)
Definition sample_registered : State :=
  register_all sample_h sample_registrations sample_state.


(** A table that is not sorted: [e] at 300 stands behind [g] at 512. *)
Definition unsorted_table : eCrashSymbolTable :=
  {| symbols := [ {| function := "f"; address := 256 |};
                  {| function := "g"; address := 512 |};
                  {| function := "e"; address := 300 |} ] |}.

(** The sample process right after a capture of one address, 80. *)
Definition sample_captured : State :=
  set_backtrace 1 [80] (set_gbl_params sample_params boot).

(** The sample process with the file opened on descriptor 3. *)
Definition sample_opened : State :=
  set_gbl_fd 3 (set_gbl_params sample_params boot).












(** The sample configuration with an explicit depth of four frames. *)
Definition shallow_params : eCrashParameters :=
  with_maxStackDepth 4 sample_params.


(* ================================================================== *)
(** ** Properties *)

(** *** Tables *)

Lemma upd_same {A : Type} (f : Z -> A) (k : Z) (v : A) : upd f k v k = v.
Proof. unfold upd. rewrite Z.eqb_refl. reflexivity. Qed.


(** *** Footprints: which cells of the state an operation can change *)

Lemma write_footprint (d : Z) (buf : string) (count : Z) (s : State) :
  exists f, snd (write d buf count s) = set_fds f s.
Proof.
  unfold write. destruct (fds s d) as [c|].
  - destruct (chan_write buf count c) as [n c']. eexists. reflexivity.
  - exists (fds s). destruct s. reflexivity.
Qed.

Lemma blockingWrite_loop_footprint (fuel : nat) (str : string) :
  forall offset bytes totalWritten d s,
  exists f,
    snd (blockingWrite_loop fuel str offset bytes totalWritten d s) = set_fds f s.
Proof.
  induction fuel as [|fuel IH]; intros offset bytes totalWritten d s; simpl.
  - exists (fds s). destruct s. reflexivity.
  - destruct (0 <? bytes).
    + destruct (write_footprint d (string_from (Z.to_nat offset) str) bytes s)
        as [f Hf].
      destruct (write d (string_from (Z.to_nat offset) str) bytes s)
        as [bytesWritten s1].
      simpl in Hf. subst s1.
      destruct (bytesWritten <? 1).
      * exists f. reflexivity.
      * destruct (IH offset (bytes - bytesWritten) (totalWritten + bytesWritten)
                     d (set_fds f s)) as [f' Hf'].
        exists f'. rewrite Hf'. reflexivity.
    + exists (fds s). destruct s. reflexivity.
Qed.

Lemma blockingWrite_footprint (str : string) (bytes d : Z) (s : State) :
  exists f, snd (blockingWrite str bytes d s) = set_fds f s.
Proof. apply blockingWrite_loop_footprint. Qed.

Lemma fwrite_footprint (buf : string) (size stream : Z) (s : State) :
  exists g, snd (fwrite buf size stream s) = set_streams g s.
Proof.
  unfold fwrite. destruct (streams s stream) as [c|].
  - destruct (chan_write buf size c) as [n c']. eexists. reflexivity.
  - exists (streams s). destruct s. reflexivity.
Qed.

(** [outputPrintf] records its call and touches nothing else but the
    descriptors and the streams. *)
Lemma outputPrintf_footprint (h : eCrash_h) (fmt : string)
    (args : list printf_arg) (s : State) :
  exists f g,
    snd (outputPrintf h fmt args s)
    = set_streams g (set_fds f
        (set_emitted (emitted s ++ [{| call_format := fmt; call_args := args |}]) s)).
Proof.
  unfold outputPrintf.
  set (s0 := set_emitted _ s).
  destruct (vsnprintf (MAX_LINE_LEN h - 1) fmt args) as [bytesInLine outputLine].
  destruct ((-1 <? bytesInLine) && (bytesInLine <? MAX_LINE_LEN h - 1)).
  2: { exists (fds s), (streams s). destruct s. reflexivity. }
  assert (H1 : exists rv f1,
    match filename (gbl_params s0) with
    | Some _ =>
        if negb (gbl_fd s0 =? -1) then
          let (w, s') := blockingWrite outputLine bytesInLine (gbl_fd s0) s0 in
          if negb (w =? 0) then (-2, s') else (0, s')
        else (0, s0)
    | None => (0, s0)
    end = (rv, set_fds f1 s0)).
  { destruct (filename (gbl_params s0)).
    - destruct (negb (gbl_fd s0 =? -1)).
      + destruct (blockingWrite_footprint outputLine bytesInLine (gbl_fd s0) s0)
          as [f Hf].
        destruct (blockingWrite outputLine bytesInLine (gbl_fd s0) s0) as [w s'].
        simpl in Hf. subst s'.
        destruct (negb (w =? 0)); eexists; exists f; reflexivity.
      + exists 0, (fds s). destruct s. reflexivity.
    - exists 0, (fds s). destruct s. reflexivity. }
  destruct H1 as (rv1 & f1 & ->).
  set (s1 := set_fds f1 s0).
  assert (H2 : exists rv g,
    match filep (gbl_params s1) with
    | Some stream =>
        let (items, s') := fwrite outputLine bytesInLine stream s1 in
        if negb (items =? 1) then (-3, s') else (rv1, s')
    | None => (rv1, s1)
    end = (rv, set_streams g s1)).
  { destruct (filep (gbl_params s1)) as [stream|].
    - destruct (fwrite_footprint outputLine bytesInLine stream s1) as [g Hg].
      destruct (fwrite outputLine bytesInLine stream s1) as [items s'].
      simpl in Hg. subst s'.
      destruct (negb (items =? 1)); eexists; exists g; reflexivity.
    - exists rv1, (streams s). destruct s. reflexivity. }
  destruct H2 as (rv2 & g & ->).
  set (s2 := set_streams g s1).
  destruct (negb (fd (gbl_params s2) =? -1)).
  - destruct (blockingWrite_footprint outputLine bytesInLine (fd (gbl_params s2)) s2)
      as [f Hf].
    destruct (blockingWrite outputLine bytesInLine (fd (gbl_params s2)) s2) as [w s'].
    simpl in Hf. subst s'.
    exists f, g. destruct (negb (w =? 0)); reflexivity.
  - exists f1, g. reflexivity.
Qed.

Lemma emit_footprint (h : eCrash_h) (fmt : string) (args : list printf_arg)
    (s : State) :
  exists f g,
    emit h fmt args s
    = set_streams g (set_fds f
        (set_emitted (emitted s ++ [{| call_format := fmt; call_args := args |}]) s)).
Proof. apply outputPrintf_footprint. Qed.

Lemma emitted_emit (h : eCrash_h) (fmt : string) (args : list printf_arg)
    (s : State) :
  emitted (emit h fmt args s)
  = emitted s ++ [{| call_format := fmt; call_args := args |}].
Proof. destruct (emit_footprint h fmt args s) as (f & g & ->). reflexivity. Qed.

(** *** Symbol lookup *)





(** The scan cuts the table in two: the entries it walked over, none above
    [addr], and the rest, which starts above [addr] if it is not empty.
    The answer is the last entry walked over. *)
Lemma lookupClosestSymbol_loop_cut (syms : list eCrashSymbol) (addr : Z) :
  forall last, exists pre post,
    syms = pre ++ post
    /\ Forall (fun e => address e <= addr) pre
    /\ (forall x post', post = x :: post' -> addr < address x)
    /\ lookupClosestSymbol_loop syms addr last
       = match rev pre with [] => last | e :: _ => Some e end.
Proof.
  induction syms as [|sym rest IH]; intros last.
  - exists [], []. repeat split; [constructor | discriminate].
  - simpl. destruct (addr <? address sym) eqn:E.
    + exists [], (sym :: rest). repeat split; [constructor|].
      intros x post' [= <- _]. lia.
    + destruct (IH (Some sym)) as (pre & post & -> & Hpre & Hpost & Heq).
      exists (sym :: pre), post. repeat split.
      * constructor; [lia | exact Hpre].
      * exact Hpost.
      * rewrite Heq. simpl. destruct (rev pre); reflexivity.
Qed.







Example lookup_inside_f : lookupClosestSymbol sample_table 336
                          = Some {| function := "f"; address := 256 |}.
Proof. reflexivity. Qed.

Example lookup_before_f : lookupClosestSymbol sample_table 80 = None.
Proof. reflexivity. Qed.

Example lookup_inside_g : lookupClosestSymbol sample_table 592
                          = Some {| function := "g"; address := 512 |}.
Proof. reflexivity. Qed.

Example lookup_at_g : lookupClosestSymbol sample_table 512
                      = Some {| function := "g"; address := 512 |}.
Proof. reflexivity. Qed.


(** *** Validation of the symbol table *)

Lemma to_ulong_nonneg (a : Z) : 0 <= to_ulong a.
Proof.
  unfold to_ulong, ptr_bits.
  apply Z.mod_pos_bound. reflexivity.
Qed.

(** With [lastAddress] at 0 no comparison of the loop succeeds: the status
    comes back as it went in and only the verbose dump is traced. *)
Lemma ValidateSymbolTable_loop_from_zero (h : eCrash_h) (syms : list eCrashSymbol) :
  forall rc s, exists tr,
    ValidateSymbolTable_loop h syms 0 rc s
    = (rc, set_debug_trace (debug_trace s ++ tr) s)
    /\ Forall (fun ev => snd ev = ("%-30s %p" ++ LF)%string) tr.
Proof.
  induction syms as [|sym rest IH]; intros rc s; cbn [ValidateSymbolTable_loop].
  - exists []. split; [|constructor].
    rewrite app_nil_r. destruct s. reflexivity.
  - pose proof (to_ulong_nonneg (address sym)) as Hge.
    destruct (to_ulong (address sym) <? 0) eqn:E; [lia|].
    destruct (IH rc (DPRINTF (ECRASH_DEBUG_VERBOSE h) ("%-30s %p" ++ LF)%string s))
      as (tr & -> & Htr).
    exists ((ECRASH_DEBUG_VERBOSE h, ("%-30s %p" ++ LF)%string) :: tr).
    split; [|constructor; [reflexivity | exact Htr]].
    unfold DPRINTF. simpl. rewrite <- app_assoc. reflexivity.
Qed.

(** C4.  [ValidateSymbolTable] returns 0 whatever table is installed, and
    never traces its complaint about an unsorted table: the address it
    compares every entry with stays 0. *)
Theorem ValidateSymbolTable_never_complains (h : eCrash_h) (s : State) :
  fst (ValidateSymbolTable h s) = 0
  /\ exists tr,
       debug_trace (snd (ValidateSymbolTable h s)) = debug_trace s ++ tr
       /\ Forall (fun ev => snd ev <> fmt_not_sorted) tr.
Proof.
  unfold ValidateSymbolTable. destruct (symbolTable (gbl_params s)) as [table|].
  - destruct (ValidateSymbolTable_loop_from_zero h (symbols table) 0
                (DPRINTF (ECRASH_DEBUG_VERBOSE h)
                         ("Symbol Table Provided with %d symbols" ++ LF)%string s))
      as (tr & -> & Htr).
    split; [reflexivity|]. simpl.
    exists ((ECRASH_DEBUG_VERBOSE h,
             ("Symbol Table Provided with %d symbols" ++ LF)%string) :: tr).
    split; [rewrite <- app_assoc; reflexivity|].
    constructor; [simpl; discriminate|].
    eapply Forall_impl; [|exact Htr].
    intros ev ->. discriminate.
  - split; [reflexivity|]. exists []. split; [|constructor].
    simpl. rewrite app_nil_r. reflexivity.
Qed.

(** The table [g] at 512, [f] at 256 goes down, and passes. *)
Example ValidateSymbolTable_descending_passes :
  has_descent (symbols descending_table) = true
  /\ ascending (symbols descending_table) = false
  /\ fst (ValidateSymbolTable sample_h (set_gbl_params descending_params boot)) = 0
  /\ debug_trace (snd (ValidateSymbolTable sample_h
                         (set_gbl_params descending_params boot)))
     = [(2, ("Symbol Table Provided with %d symbols" ++ LF)%string);
        (2, ("%-30s %p" ++ LF)%string); (2, ("%-30s %p" ++ LF)%string)].
Proof. repeat split. Qed.

(** *** blockingWrite *)

(** Fuel never decides: with at least [bytes] rounds allowed, the loop
    ends because the bytes are used up or a [write] made no progress. *)
Lemma blockingWrite_loop_fuel (str : string) (offset d : Z) :
  forall fuel1 fuel2 bytes totalWritten s,
    (Z.to_nat bytes <= fuel1)%nat -> (Z.to_nat bytes <= fuel2)%nat ->
    blockingWrite_loop fuel1 str offset bytes totalWritten d s
    = blockingWrite_loop fuel2 str offset bytes totalWritten d s.
Proof.
  induction fuel1 as [|fuel1 IH]; intros fuel2 bytes totalWritten s H1 H2.
  - destruct fuel2 as [|fuel2]; [reflexivity|]. simpl.
    destruct (0 <? bytes) eqn:E; [lia | reflexivity].
  - destruct fuel2 as [|fuel2]; simpl.
    + destruct (0 <? bytes) eqn:E; [lia | reflexivity].
    + destruct (0 <? bytes) eqn:E; [|reflexivity].
      destruct (write d (string_from (Z.to_nat offset) str) bytes s)
        as [bytesWritten s1].
      destruct (bytesWritten <? 1) eqn:Ew; [reflexivity|].
      apply IH; lia.
Qed.

(** The count returned lies between 0 and [bytes]. *)
Lemma chan_write_bound (buf : string) (count : Z) (c : channel) :
  fst (chan_write buf count c) <= Z.max count (-1).
Proof.
  unfold chan_write. destruct (negb (chan_open c)); simpl; lia.
Qed.

Lemma write_bound (d : Z) (buf : string) (count : Z) (s : State) :
  fst (write d buf count s) <= Z.max count (-1).
Proof.
  unfold write. destruct (fds s d) as [c|]; [|simpl; lia].
  pose proof (chan_write_bound buf count c) as H.
  destruct (chan_write buf count c) as [n c']. exact H.
Qed.

Lemma blockingWrite_loop_total (fuel : nat) (str : string) (offset d : Z) :
  forall bytes totalWritten s,
    0 <= totalWritten ->
    totalWritten
    <= fst (blockingWrite_loop fuel str offset bytes totalWritten d s)
    <= totalWritten + Z.max bytes 0.
Proof.
  induction fuel as [|fuel IH]; intros bytes totalWritten s Ht; simpl; [lia|].
  destruct (0 <? bytes) eqn:E; [|simpl; lia].
  pose proof (write_bound d (string_from (Z.to_nat offset) str) bytes s) as Hw.
  destruct (write d (string_from (Z.to_nat offset) str) bytes s)
    as [bytesWritten s1].
  simpl in Hw.
  destruct (bytesWritten <? 1) eqn:Ew; [simpl; lia|].
  specialize (IH (bytes - bytesWritten) (totalWritten + bytesWritten) s1).
  lia.
Qed.

Lemma blockingWrite_loop_done (fuel : nat) (str : string)
    (offset bytes totalWritten d : Z) (s : State) :
  bytes <= 0 ->
  blockingWrite_loop fuel str offset bytes totalWritten d s = (totalWritten, s).
Proof.
  intros H. destruct fuel as [|fuel]; simpl; [reflexivity|].
  destruct (0 <? bytes) eqn:E; [lia | reflexivity].
Qed.

Lemma substring_whole (t : string) : substring 0 (String.length t) t = t.
Proof. induction t as [|c t IH]; simpl; [reflexivity | rewrite IH; reflexivity]. Qed.

(** A descriptor that takes the whole line in one [write] receives exactly
    the line. *)
Lemma blockingWrite_one_shot (str : string) (d : Z) (s : State) (c : channel) :
  fds s d = Some c -> chan_open c = true -> chan_script c = [] ->
  str <> ""%string ->
  let r := blockingWrite str (Z.of_nat (String.length str)) d s in
  fst r = Z.of_nat (String.length str)
  /\ option_map chan_received (fds (snd r) d)
     = Some (chan_received c ++ str)%string.
Proof.
  intros Hd Hopen Hscript Hne. unfold blockingWrite.
  destruct str as [|a t]; [congruence|].
  set (n := Z.of_nat (String.length (String a t))).
  assert (Hn : 0 < n) by (unfold n; simpl String.length; lia).
  destruct (Z.to_nat n) as [|fuel] eqn:Ef; [lia|].
  cbn [blockingWrite_loop].
  destruct (0 <? n) eqn:E; [|lia].
  unfold write. rewrite Hd. unfold chan_write. rewrite Hopen, Hscript. cbn [negb].
  rewrite Z.min_id.
  destruct (n <? 1) eqn:E1; [lia|].
  rewrite Z.sub_diag, blockingWrite_loop_done by lia.
  cbn [fst snd set_fds fds upd]. split; [lia|].
  unfold upd. rewrite Z.eqb_refl.
  cbn [option_map chan_received string_from Z.to_nat].
  unfold n. rewrite Nat2Z.id, substring_whole. reflexivity.
Qed.

Lemma string_app_assoc (a b c : string) :
  (a ++ (b ++ c))%string = ((a ++ b) ++ c)%string.
Proof. induction a as [|x a IH]; simpl; [reflexivity | rewrite IH; reflexivity]. Qed.

(** X5.  A descriptor that takes the line in two pieces receives the first
    [k] bytes and then, again from the start of the line, the first
    [length str - k] bytes. *)
Lemma blockingWrite_two_writes (str : string) (k : nat) (d : Z) (s : State)
    (c : channel) :
  fds s d = Some c -> chan_open c = true ->
  chan_script c = [Z.of_nat k; Z.of_nat (String.length str - k)] ->
  (1 <= k < String.length str)%nat ->
  let r := blockingWrite str (Z.of_nat (String.length str)) d s in
  fst r = Z.of_nat (String.length str)
  /\ option_map chan_received (fds (snd r) d)
     = Some (chan_received c ++ substring 0 k str
             ++ substring 0 (String.length str - k) str)%string.
Proof.
  intros Hd Hopen Hscript Hk. unfold blockingWrite.
  remember (String.length str) as n eqn:En.
  rewrite Nat2Z.id.
  destruct n as [|[|m]]; [lia | lia |].
  assert (Hr : exists s',
    blockingWrite_loop (S (S m)) str 0 (Z.of_nat (S (S m))) 0 d s
    = (Z.of_nat (S (S m)), s')
    /\ option_map chan_received (fds s' d)
       = Some (chan_received c ++ substring 0 k str
               ++ substring 0 (S (S m) - k) str)%string).
  { cbn [blockingWrite_loop].
    destruct (Z.ltb_spec 0 (Z.of_nat (S (S m)))) as [E0|E0]; [|exfalso; lia].
    unfold write at 1. rewrite Hd. unfold chan_write at 1.
    rewrite Hopen, Hscript. cbn [negb tl].
    rewrite Z.min_l by lia.
    destruct (Z.ltb_spec (Z.of_nat k) 1) as [E1|E1]; [exfalso; lia|].
    destruct (Z.ltb_spec 0 (Z.of_nat (S (S m)) - Z.of_nat k)) as [E2|E2];
      [|exfalso; lia].
    unfold write. cbn [fds set_fds]. rewrite upd_same.
    unfold chan_write. cbn [chan_open negb chan_script tl].
    rewrite Z.min_l by lia.
    destruct (Z.ltb_spec (Z.of_nat (S (S m) - k)) 1) as [E3|E3]; [exfalso; lia|].
    rewrite blockingWrite_loop_done by lia.
    eexists. split; [f_equal; lia|].
    cbn [fds set_fds]. rewrite upd_same.
    cbn [option_map chan_received string_from Z.to_nat].
    rewrite !Nat2Z.id, <- string_app_assoc. reflexivity. }
  destruct Hr as (s' & -> & Hrecv). split; [reflexivity | exact Hrecv].
Qed.

(** C6.  Four bytes offered to a descriptor that takes two bytes per
    [write]: [blockingWrite] reports all four written, and what the
    descriptor has received is the first two bytes twice. *)
Theorem blockingWrite_resends_the_start :
  let r := blockingWrite "abcd" 4 3 (with_descriptor 3 [2; 2] boot) in
  fst r = 4
  /\ option_map chan_received (fds (snd r) 3) = Some "abab"
  /\ option_map chan_received (fds (snd r) 3) <> Some "abcd".
Proof. repeat split. discriminate. Qed.

(** *** Writing *)

(** X1.  Whatever the descriptor does, [blockingWrite] returns a count
    between 0 and the number of bytes it was asked to write: a failed
    [write] shows as a short count, never as a negative value. *)
Theorem blockingWrite_count_in_range (str : string)
    (bytes d : Z) (s : State) :
  0 <= fst (blockingWrite str bytes d s) <= Z.max bytes 0.
Proof.
  unfold blockingWrite.
  pose proof (@blockingWrite_loop_total (Z.to_nat bytes) str 0 d bytes 0 s) as H.
  lia.
Qed.

Lemma write_other_descriptor (d d' : Z) (buf : string) (count : Z) (s : State) :
  d' <> d -> fds (snd (write d buf count s)) d' = fds s d'.
Proof.
  intros Hne. unfold write. destruct (fds s d) as [c|]; [|reflexivity].
  destruct (chan_write buf count c) as [n c']. cbn [snd fds set_fds].
  unfold upd. destruct (Z.eqb_spec d' d); [contradiction | reflexivity].
Qed.

Lemma blockingWrite_loop_other_descriptor (fuel : nat) (str : string)
    (offset d d' : Z) :
  d' <> d ->
  forall bytes totalWritten s,
    fds (snd (blockingWrite_loop fuel str offset bytes totalWritten d s)) d'
    = fds s d'.
Proof.
  intros Hne. induction fuel as [|fuel IH]; intros bytes totalWritten s;
    cbn [blockingWrite_loop]; [reflexivity|].
  destruct (0 <? bytes); [|reflexivity].
  pose proof (@write_other_descriptor d d' (string_from (Z.to_nat offset) str)
                bytes s Hne) as Hw.
  destruct (write d (string_from (Z.to_nat offset) str) bytes s)
    as [bytesWritten s1].
  cbn [snd] in Hw.
  destruct (bytesWritten <? 1); [exact Hw|].
  rewrite IH. exact Hw.
Qed.

(** X2.  [blockingWrite] changes the descriptor it writes to and nothing
    else: every other descriptor, and every other part of the state, is
    as before. *)
Theorem blockingWrite_touches_one_descriptor (str : string) (bytes d d' : Z)
    (s : State) :
  d' <> d ->
  fds (snd (blockingWrite str bytes d s)) d' = fds s d'
  /\ snd (blockingWrite str bytes d s)
     = set_fds (fds (snd (blockingWrite str bytes d s))) s.
Proof.
  intros Hne. split.
  - apply blockingWrite_loop_other_descriptor. exact Hne.
  - destruct (blockingWrite_footprint str bytes d s) as (f & Hf).
    rewrite Hf. reflexivity.
Qed.

(** X3.  On a descriptor that is not open (unknown to the process, or
    closed) [blockingWrite] returns 0 and delivers nothing. *)
Theorem blockingWrite_bad_descriptor (str : string) (bytes d : Z) (s : State) :
  (forall c, fds s d = Some c -> chan_open c = false) ->
  fst (blockingWrite str bytes d s) = 0
  /\ option_map chan_received (fds (snd (blockingWrite str bytes d s)) d)
     = option_map chan_received (fds s d).
Proof.
  intros Hbad. unfold blockingWrite.
  destruct (Z.to_nat bytes) as [|fuel]; cbn [blockingWrite_loop];
    [split; reflexivity|].
  destruct (0 <? bytes); [|split; reflexivity].
  unfold write. destruct (fds s d) as [c|] eqn:Ec.
  - unfold chan_write. rewrite (Hbad c eq_refl). cbn [negb fst snd].
    change (-1 <? 1) with true. cbn [fst snd fds set_fds].
    rewrite upd_same. split; reflexivity.
  - cbn [fst snd]. change (-1 <? 1) with true. cbn [fst snd].
    rewrite Ec. split; reflexivity.
Qed.

(** X4.  When the first [write] takes all the bytes of a non-empty line,
    [blockingWrite] returns the length of the line, the descriptor has
    received exactly the line after what it had, and one scripted result
    has been used. *)
Theorem blockingWrite_first_write_takes_all (str : string) (d : Z) (s : State)
    (c : channel) :
  fds s d = Some c -> chan_open c = true ->
  (forall r rest, chan_script c = r :: rest -> Z.of_nat (String.length str) <= r) ->
  str <> ""%string ->
  let r := blockingWrite str (Z.of_nat (String.length str)) d s in
  fst r = Z.of_nat (String.length str)
  /\ fds (snd r) d
     = Some {| chan_script := tl (chan_script c);
               chan_received := (chan_received c ++ str)%string;
               chan_open := true |}.
Proof.
  intros Hd Hopen Hscript Hne. unfold blockingWrite.
  destruct str as [|a t]; [congruence|].
  set (n := Z.of_nat (String.length (String a t))) in *.
  assert (Hn : 0 < n) by (unfold n; simpl String.length; lia).
  destruct (Z.to_nat n) as [|fuel] eqn:Ef; [lia|].
  cbn [blockingWrite_loop].
  destruct (Z.ltb_spec 0 n) as [E|E]; [|exfalso; lia].
  unfold write. rewrite Hd. unfold chan_write. rewrite Hopen. cbn [negb].
  assert (Hmin : Z.min (match chan_script c with [] => n | r :: _ => r end) n = n).
  { destruct (chan_script c) as [|r rest] eqn:Es.
    - apply Z.min_id.
    - specialize (Hscript r rest eq_refl). lia. }
  rewrite Hmin.
  destruct (Z.ltb_spec n 1) as [E1|E1]; [exfalso; lia|].
  rewrite Z.sub_diag, blockingWrite_loop_done by lia.
  cbn [fst snd set_fds fds]. split; [lia|].
  rewrite upd_same. cbn [string_from Z.to_nat].
  unfold n. rewrite Nat2Z.id, substring_whole. reflexivity.
Qed.

(** *** outputPrintf *)

Lemma substring_all (t : string) (n : nat) :
  (String.length t <= n)%nat -> substring 0 n t = t.
Proof.
  revert n. induction t as [|c t IH]; intros n H.
  - destruct n; reflexivity.
  - destruct n as [|n]; [simpl in H; lia|].
    simpl. rewrite IH by (simpl in H; lia). reflexivity.
Qed.

(** X10.  A line that fits, sent to an explicit descriptor that takes it whole
    and is the only destination: the descriptor receives the text of the
    call, and the status is -4. *)
Lemma outputPrintf_descriptor_only (h : eCrash_h) (fmt : string)
    (args : list printf_arg) (text : string) (s : State) (c : channel) :
  filename (gbl_params s) = None -> filep (gbl_params s) = None ->
  fd (gbl_params s) <> -1 ->
  fds s (fd (gbl_params s)) = Some c -> chan_open c = true -> chan_script c = [] ->
  format_text fmt args = Some text -> text <> ""%string ->
  Z.of_nat (String.length text) < MAX_LINE_LEN h - 1 ->
  fst (outputPrintf h fmt args s) = -4
  /\ option_map chan_received (fds (snd (outputPrintf h fmt args s)) (fd (gbl_params s)))
     = Some (chan_received c ++ text)%string.
Proof.
  intros Hfile Hfilep Hfd Hc Hopen Hscript Htext Hne Hfits.
  unfold outputPrintf, vsnprintf. rewrite Htext.
  rewrite substring_all by lia.
  destruct ((-1 <? Z.of_nat (String.length text))
            && (Z.of_nat (String.length text) <? MAX_LINE_LEN h - 1)) eqn:E.
  2: { apply andb_false_iff in E. destruct E as [E|E]; lia. }
  cbn [gbl_params set_emitted gbl_fd]. rewrite Hfile.
  cbn [gbl_params set_emitted gbl_fd]. rewrite Hfilep.
  cbn [gbl_params set_emitted gbl_fd].
  destruct (Z.eqb_spec (fd (gbl_params s)) (-1)) as [E1|E1]; [contradiction|].
  cbn [negb].
  match goal with |- context [blockingWrite _ _ _ ?x] => set (s0 := x) end.
  destruct (@blockingWrite_one_shot text (fd (gbl_params s)) s0 c Hc Hopen Hscript Hne)
    as (Hw & Hrecv).
  destruct (blockingWrite text (Z.of_nat (String.length text)) (fd (gbl_params s)) s0)
    as [w s'].
  cbn [fst snd] in *. subst w.
  assert (Hpos : 0 < Z.of_nat (String.length text)).
  { destruct text; [congruence | simpl String.length; lia]. }
  destruct (Z.eqb_spec (Z.of_nat (String.length text)) 0) as [E2|E2]; [lia|].
  cbn [negb fst snd]. split; [reflexivity | exact Hrecv].
Qed.

(** C5.  With the explicit descriptor as the only destination:
    when the descriptor takes the whole line, [outputPrintf] returns -4;
    when its [write] fails and nothing is written, [outputPrintf] returns 0.
    With all three destinations taking the whole line it returns -4 too. *)
Theorem outputPrintf_status_inverted :
  (let r := outputPrintf sample_h fmt_separator []
                         (set_gbl_params descriptor_only boot) in
   fst r = -4
   /\ option_map chan_received (fds (snd r) 2) = Some fmt_separator)
  /\ (let r := outputPrintf sample_h fmt_separator []
                 (with_descriptor 2 [-1] (set_gbl_params descriptor_only boot)) in
      fst r = 0
      /\ option_map chan_received (fds (snd r) 2) = Some ""%string)
  /\ (let r := outputPrintf sample_h fmt_separator []
                 (set_gbl_fd 3 (set_gbl_params sample_params boot)) in
      fst r = -4
      /\ option_map chan_received (fds (snd r) 3) = Some fmt_separator
      /\ option_map chan_received (streams (snd r) 1) = Some fmt_separator
      /\ option_map chan_received (fds (snd r) 2) = Some fmt_separator).
Proof. repeat split. Qed.

(** Every destination is tried, whatever happened to the ones before: the
    file's descriptor and the stream fail here, the explicit descriptor
    still receives the line. *)
Example outputPrintf_tries_every_destination :
  let s := with_descriptor 3 [-1]
             (set_streams (fun _ => None)
                (set_gbl_fd 3 (set_gbl_params sample_params boot))) in
  let r := outputPrintf sample_h fmt_separator [] s in
  option_map chan_received (fds (snd r) 3) = Some ""%string
  /\ option_map chan_received (fds (snd r) 2) = Some fmt_separator.
Proof. repeat split. Qed.

(** *** The output sink *)

(** X6.  A line that does not fit the line buffer (its text has
    [MAX_LINE_LEN - 1] bytes or more), or whose arguments do not fit its
    format, is dropped: [outputPrintf] returns -1 and no destination
    receives anything. *)
Theorem outputPrintf_line_too_long (h : eCrash_h) (fmt : string)
    (args : list printf_arg) (s : State) :
  (forall text, format_text fmt args = Some text ->
                MAX_LINE_LEN h - 1 <= Z.of_nat (String.length text)) ->
  outputPrintf h fmt args s
  = (-1, set_emitted (emitted s ++ [call fmt args]) s).
Proof.
  intros Hlong. unfold outputPrintf, vsnprintf.
  destruct (format_text fmt args) as [text|].
  - specialize (Hlong text eq_refl).
    destruct (Z.ltb_spec (Z.of_nat (String.length text)) (MAX_LINE_LEN h - 1));
      [exfalso; lia|].
    rewrite andb_false_r. reflexivity.
  - reflexivity.
Qed.

(** With no usable destination [outputPrintf] writes nothing; a line that
    fits is reported as sent. *)
Lemma outputPrintf_no_destination (h : eCrash_h) (fmt : string)
    (args : list printf_arg) (s : State) :
  gbl_fd s = -1 -> filep (gbl_params s) = None -> fd (gbl_params s) = -1 ->
  snd (outputPrintf h fmt args s)
  = set_emitted (emitted s ++ [call fmt args]) s
  /\ (fst (outputPrintf h fmt args s) = 0 \/ fst (outputPrintf h fmt args s) = -1).
Proof.
  intros Hg Hf Hd. unfold outputPrintf.
  destruct (vsnprintf (MAX_LINE_LEN h - 1) fmt args) as [bytesInLine outputLine].
  destruct ((-1 <? bytesInLine) && (bytesInLine <? MAX_LINE_LEN h - 1));
    [|split; [reflexivity | right; reflexivity]].
  cbn [gbl_params gbl_fd set_emitted]. rewrite Hg.
  change (negb (-1 =? -1)) with false.
  destruct (filename (gbl_params s)); cbn [gbl_params set_emitted];
    rewrite Hf; cbn [gbl_params set_emitted];
    rewrite Hd; change (negb (-1 =? -1)) with false;
    (split; [reflexivity | left; reflexivity]).
Qed.

Lemma outputFini_handles (s : State) :
  gbl_fd (outputFini s) = -1
  /\ filep (gbl_params (outputFini s)) = None
  /\ fd (gbl_params (outputFini s)) = -1.
Proof. repeat split. Qed.

(** X7.  Once [outputFini] has run, a further [outputPrintf] reaches no
    destination: descriptors and streams stay as [outputFini] left them,
    and only the call is recorded. *)
Theorem outputPrintf_after_outputFini (h : eCrash_h) (fmt : string)
    (args : list printf_arg) (s : State) :
  snd (outputPrintf h fmt args (outputFini s))
  = set_emitted (emitted (outputFini s) ++ [call fmt args]) (outputFini s)
  /\ (fst (outputPrintf h fmt args (outputFini s)) = 0
      \/ fst (outputPrintf h fmt args (outputFini s)) = -1).
Proof.
  destruct (outputFini_handles s) as (Hg & Hf & Hd).
  apply outputPrintf_no_destination; assumption.
Qed.

(** X8.  [outputFini] is idempotent: a second call changes nothing. *)
Theorem outputFini_idempotent (s : State) :
  outputFini (outputFini s) = outputFini s.
Proof.
  set (s1 := outputFini s).
  destruct (outputFini_handles s) as (Hg & Hf & Hd). fold s1 in Hg, Hf, Hd.
  unfold outputFini at 1. rewrite Hg. change (-1 <? -1) with false.
  cbv beta iota zeta. rewrite Hf. cbv beta iota zeta. rewrite Hd.
  change (-1 <? -1) with false. cbv beta iota zeta.
  unfold s1, outputFini. reflexivity.
Qed.

Lemma close_fds_same (d : Z) (c : channel) (s : State) :
  fds s d = Some c -> fds (close d s) d = Some (chan_close c).
Proof.
  intros H. unfold close. rewrite H. cbn [fds set_fds]. apply upd_same.
Qed.

Lemma close_fds_other (d d' : Z) (s : State) :
  d' <> d -> fds (close d s) d' = fds s d'.
Proof.
  intros H. unfold close. destruct (fds s d); [|reflexivity].
  cbn [fds set_fds]. unfold upd.
  destruct (Z.eqb_spec d' d); [contradiction | reflexivity].
Qed.

Lemma close_gbl_params (d : Z) (s : State) : gbl_params (close d s) = gbl_params s.
Proof. unfold close. destruct (fds s d); reflexivity. Qed.

Lemma fclose_gbl_params (f : Z) (s : State) : gbl_params (fclose f s) = gbl_params s.
Proof. unfold fclose. destruct (streams s f); reflexivity. Qed.

Lemma fclose_fds (f : Z) (s : State) : fds (fclose f s) = fds s.
Proof. unfold fclose. destruct (streams s f); reflexivity. Qed.

(** X9.  [outputFini] closes the descriptor opened for the file and the
    explicit descriptor: each is left closed, with the bytes it had
    received. *)
Theorem outputFini_closes_descriptors (d : Z) (c : channel) (s : State) :
  fds s d = Some c -> -1 < d ->
  d = gbl_fd s \/ d = fd (gbl_params s) ->
  fds (outputFini s) d = Some (chan_close c).
Proof.
  intros Hc Hpos Hwhich.
  { unfold outputFini. cbn [fds set_gbl_params set_gbl_fd].
    set (s1 := if -1 <? gbl_fd s then close (gbl_fd s) s else s).
    assert (P1 : gbl_params s1 = gbl_params s)
      by (unfold s1; destruct (-1 <? gbl_fd s); [apply close_gbl_params | reflexivity]).
    assert (F1 : fds s1 d = Some c \/ fds s1 d = Some (chan_close c)).
    { unfold s1. destruct (Z.ltb_spec (-1) (gbl_fd s)); [|left; exact Hc].
      destruct (Z.eq_dec d (gbl_fd s)) as [->|Hne].
      - right. apply close_fds_same. exact Hc.
      - left. rewrite close_fds_other by exact Hne. exact Hc. }
    assert (G1 : d = gbl_fd s -> fds s1 d = Some (chan_close c)).
    { intros ->. unfold s1. destruct (Z.ltb_spec (-1) (gbl_fd s)); [|lia].
      apply close_fds_same. exact Hc. }
    set (s2 := match filep (gbl_params s1) with
               | Some stream => fclose stream s1 | None => s1 end).
    assert (P2 : gbl_params s2 = gbl_params s).
    { unfold s2. destruct (filep (gbl_params s1));
        [rewrite fclose_gbl_params|]; exact P1. }
    assert (F2 : fds s2 = fds s1).
    { unfold s2. destruct (filep (gbl_params s1)); [apply fclose_fds | reflexivity]. }
    rewrite P2.
    destruct (Z.ltb_spec (-1) (fd (gbl_params s))) as [Hfd|Hfd].
    - destruct (Z.eq_dec d (fd (gbl_params s))) as [E|Hne].
      + rewrite <- E.
        destruct F1 as [F1|F1].
        * apply close_fds_same. rewrite F2. exact F1.
        * rewrite (@close_fds_same d (chan_close c) s2) by (rewrite F2; exact F1).
          reflexivity.
      + rewrite close_fds_other by exact Hne. rewrite F2.
        destruct Hwhich as [E|E]; [apply G1; exact E | contradiction].
    - rewrite F2. destruct Hwhich as [E|E]; [apply G1; exact E | lia]. }
Qed.

(** *** What reaches the destinations *)


















(** *** Steps that print nothing *)

Lemma quiet_refl (s : State) : quiet s s.
Proof. repeat split. Qed.

Lemma quiet_trans (s1 s2 s3 : State) : quiet s1 s2 -> quiet s2 s3 -> quiet s1 s3.
Proof.
  unfold quiet. intros (A & B & C & D & E & F & G) (A' & B' & C' & D' & E' & F' & G').
  repeat split; congruence.
Qed.





(** *** Symbols and frames *)

(** X11.  On any table, sorted or not, [lookupClosestSymbol] never returns
    an entry that lies above the address: its answer is an entry of the
    table at or below the address, and it answers none only for an empty
    table or one whose first entry lies above the address. *)
Theorem lookupClosestSymbol_never_above (table : eCrashSymbolTable) (addr : Z) :
  match lookupClosestSymbol table addr with
  | Some e => In e (symbols table) /\ address e <= addr
  | None =>
      symbols table = []
      \/ exists first rest, symbols table = first :: rest /\ addr < address first
  end.
Proof.
  unfold lookupClosestSymbol.
  destruct (lookupClosestSymbol_loop_cut (symbols table) addr None)
    as (pre & post & Hsplit & Hpre & Hpost & ->).
  rewrite Forall_forall in Hpre.
  destruct (rev pre) as [|e t] eqn:E.
  - assert (pre = []) as -> by (rewrite <- (rev_involutive pre), E; reflexivity).
    simpl in Hsplit. destruct post as [|x post']; [left; exact Hsplit|].
    right. exists x, post'. split; [exact Hsplit | exact (Hpost x post' eq_refl)].
  - assert (Hin : In e pre).
    { apply in_rev. rewrite E. left. reflexivity. }
    split; [rewrite Hsplit; apply in_or_app; left; exact Hin | apply Hpre; exact Hin].
Qed.

Lemma lookupClosestSymbol_loop_prefix (pre : list eCrashSymbol) (x : eCrashSymbol)
    (post : list eCrashSymbol) (addr : Z) :
  Forall (fun e => address e <= addr) pre -> addr < address x ->
  forall last,
    lookupClosestSymbol_loop (pre ++ x :: post) addr last
    = match last_symbol pre with None => last | Some e => Some e end.
Proof.
  intros Hpre Hx. induction Hpre as [|e pre He Hpre IH]; intros last.
  - cbn. destruct (Z.ltb_spec addr (address x)); [reflexivity | lia].
  - cbn [app lookupClosestSymbol_loop].
    destruct (Z.ltb_spec addr (address e)); [lia|].
    rewrite IH. unfold last_symbol. cbn [rev].
    destruct (rev pre); reflexivity.
Qed.

(** X12.  The scan stops at the first entry above the address and does not
    look at the entries behind it: the answer is the entry just before
    that one, whatever follows.  (On a table that is not sorted a closer
    entry further on is missed.) *)
Theorem lookupClosestSymbol_stops_at_first_above (table : eCrashSymbolTable)
    (pre : list eCrashSymbol) (x : eCrashSymbol) (post : list eCrashSymbol)
    (addr : Z) :
  symbols table = pre ++ x :: post ->
  Forall (fun e => address e <= addr) pre -> addr < address x ->
  lookupClosestSymbol table addr = last_symbol pre.
Proof.
  intros Hsyms Hpre Hx. unfold lookupClosestSymbol. rewrite Hsyms.
  rewrite (@lookupClosestSymbol_loop_prefix pre x post addr Hpre Hx).
  destruct (last_symbol pre); reflexivity.
Qed.

(** *** Frame lines *)



Lemma createGlobalBacktrace_quiet (env : Env) (t : pthread_t) (s : State) :
  quiet s (createGlobalBacktrace env t s).
Proof.
  unfold createGlobalBacktrace.
  destruct (symbolTable (gbl_params (set_backtrace _ _ s)));
    [|destruct (useBacktraceSymbols (gbl_params (set_backtrace _ _ s)))];
    repeat split.
Qed.

(** What a capture leaves in the shared cells, besides the symbol lines. *)
Lemma createGlobalBacktrace_cells (env : Env) (t : pthread_t) (s : State) :
  gbl_backtraceBuffer (createGlobalBacktrace env t s)
  = backtrace (env_stack env t) (maxStackDepth (gbl_params s))
  /\ gbl_backtraceEntries (createGlobalBacktrace env t s)
     = Z.of_nat (List.length (backtrace (env_stack env t)
                                        (maxStackDepth (gbl_params s))))
  /\ gbl_backtraceDoneFlag (createGlobalBacktrace env t s) = gbl_backtraceDoneFlag s
  /\ pending (createGlobalBacktrace env t s) = pending s
  /\ sent (createGlobalBacktrace env t s) = sent s
  /\ clock (createGlobalBacktrace env t s) = clock s.
Proof.
  unfold createGlobalBacktrace.
  destruct (symbolTable (gbl_params (set_backtrace _ _ s)));
    [|destruct (useBacktraceSymbols (gbl_params (set_backtrace _ _ s)))];
    repeat split.
Qed.









(** X14.  A frame is printed as a raw pointer when no symbol resolves it:
    with a table, when the address lies below the first entry or the table
    is empty; without a table, when no symbol lines were produced. *)
Theorem outputFrame_raw_pointer (h : eCrash_h) (i : Z) (s : State) :
  let cell := nth (Z.to_nat i) (gbl_backtraceBuffer s) 0 in
  (symbolTable (gbl_params s) = None /\ gbl_backtraceSymbols s = None)
  \/ (exists table, symbolTable (gbl_params s) = Some table
                    /\ symbols table = [])
  \/ (exists table first rest,
         symbolTable (gbl_params s) = Some table
         /\ symbols table = first :: rest /\ cell < address first) ->
  emitted (outputFrame h i s)
  = emitted s ++ [call fmt_frame_pointer [ANum i; ANum cell]]
  /\ call_text (call fmt_frame_pointer [ANum i; ANum cell])
     = Some ("*      Frame " ++ conv_02d i ++ ": " ++ conv_p cell ++ LF)%string.
Proof.
  intros cell H. split; [|reflexivity].
  unfold outputFrame. fold cell.
  destruct H as [(Ht & Hs)|[(table & Ht & Hs)|(table & first & rest & Ht & Hs & Hlt)]].
  - rewrite Ht, Hs. apply emitted_emit.
  - rewrite Ht. unfold lookupClosestSymbol. rewrite Hs. cbn. apply emitted_emit.
  - rewrite Ht. unfold lookupClosestSymbol. rewrite Hs. cbn.
    destruct (Z.ltb_spec cell (address first)); [|lia]. apply emitted_emit.
Qed.

(** *** eCrash_Init *)

Lemma ValidateSymbolTable_footprint (h : eCrash_h) (s : State) :
  exists d, snd (ValidateSymbolTable h s) = set_debug_trace d s.
Proof.
  unfold ValidateSymbolTable. destruct (symbolTable (gbl_params s)) as [table|].
  - destruct (ValidateSymbolTable_loop_from_zero h (symbols table) 0
                (DPRINTF (ECRASH_DEBUG_VERBOSE h)
                         ("Symbol Table Provided with %d symbols" ++ LF)%string s))
      as (tr & -> & _).
    eexists. reflexivity.
  - exists (debug_trace s). destruct s. reflexivity.
Qed.

Lemma In_terminated_cons (signo : Z) (rest : list Z) :
  terminated (signo :: rest) -> signo <> 0 -> terminated rest.
Proof. intros [H|H] Hne; [congruence | exact H]. Qed.

(** On an array that holds its sentinel the registration loop returns,
    having changed dispositions and the debug trace only. *)
Lemma install_crash_handlers_returns (h : eCrash_h) (array : list Z) :
  terminated array ->
  forall s, exists t d,
    install_crash_handlers h array s
    = Returns tt (set_sigtable t (set_debug_trace d s)).
Proof.
  induction array as [|signo rest IH]; intros Hin s; [destruct Hin|].
  cbn [install_crash_handlers]. destruct (signo =? 0) eqn:E.
  - exists (sigtable s), (debug_trace s). destruct s. reflexivity.
  - assert (Hrest : terminated rest) by (apply (In_terminated_cons Hin); lia).
    unfold bind at 1. unfold modify at 1. unfold bind at 1. unfold modify at 1.
    set (s1 := DPRINTF _ _ s).
    assert (Hs2 : exists t1, snd (signal signo (Handler H_crash_handler) s1) = set_sigtable t1 s1).
    { unfold signal. destruct (catchable signo).
      - eexists. reflexivity.
      - exists (sigtable s1). destruct s. reflexivity. }
    destruct Hs2 as (t1 & ->).
    destruct (IH Hrest (set_sigtable t1 s1)) as (t & d & ->).
    exists t, d. reflexivity.
Qed.

(** Without a sentinel the loop runs off the array. *)
Lemma install_crash_handlers_overruns (h : eCrash_h) (array : list Z) :
  ~ terminated array ->
  forall s, exists s', install_crash_handlers h array s = Faults ArrayOverrun s'.
Proof.
  induction array as [|signo rest IH]; intros Hnot s.
  - exists s. reflexivity.
  - cbn [install_crash_handlers]. destruct (signo =? 0) eqn:E.
    + exfalso. apply Hnot. left. lia.
    + unfold bind at 1. unfold modify at 1. unfold bind at 1. unfold modify at 1.
      apply IH. intros H. apply Hnot. right. exact H.
Qed.

(** What a call with a usable configuration leaves behind: the buffer has
    [maxStackDepth + 5] cells (the sum in [unsigned int]), for the depth
    the caller passed; the depth in force is the default when the caller
    passed 0. *)
Lemma eCrash_Init_returns (h : eCrash_h) (p : eCrashParameters) (name : string)
    (s : State) :
  filename p = Some name -> terminated (signals p) ->
  exists s',
    eCrash_Init h (Some p) s = Returns 0 s'
    /\ gbl_backtraceCapacity s' = to_uint (maxStackDepth p + 5)
    /\ maxStackDepth (gbl_params s')
       = (if maxStackDepth p =? 0 then ECRASH_DEFAULT_STACK_DEPTH h
          else maxStackDepth p)
    /\ symbolTable (gbl_params s') = symbolTable p
    /\ ThreadList s' = ThreadList s.
Proof.
  intros Hname Hterm. unfold eCrash_Init.
  cbv [bind modify ret gets deref option_map raise]. rewrite Hname.
  cbn [gbl_params set_gbl_params set_gbl_backtraceCapacity DPRINTF set_debug_trace
       maxStackDepth with_filename].
  set (s1 := if maxStackDepth p =? 0 then _ else _).
  set (s2 := if defaultBacktraceSignal (gbl_params s1) =? 0 then _ else _).
  set (s3 := if threadWaitTime (gbl_params s2) =? 0 then _ else _).
  set (s4 := if debugLevel (gbl_params s3) =? 0 then _ else _).
  set (s5 := match symbolTable (gbl_params s4) with Some _ => _ | None => _ end).
  assert (F1 : gbl_backtraceCapacity s1 = to_uint (maxStackDepth p + 5)
               /\ maxStackDepth (gbl_params s1)
                  = (if maxStackDepth p =? 0 then ECRASH_DEFAULT_STACK_DEPTH h
                     else maxStackDepth p)
               /\ symbolTable (gbl_params s1) = symbolTable p
               /\ signals (gbl_params s1) = signals p
               /\ ThreadList s1 = ThreadList s).
  { unfold s1. destruct (maxStackDepth p =? 0); repeat split. }
  assert (F2 : gbl_backtraceCapacity s2 = gbl_backtraceCapacity s1
               /\ maxStackDepth (gbl_params s2) = maxStackDepth (gbl_params s1)
               /\ symbolTable (gbl_params s2) = symbolTable (gbl_params s1)
               /\ signals (gbl_params s2) = signals (gbl_params s1)
               /\ ThreadList s2 = ThreadList s1).
  { unfold s2. destruct (defaultBacktraceSignal (gbl_params s1) =? 0); repeat split. }
  assert (F3 : gbl_backtraceCapacity s3 = gbl_backtraceCapacity s2
               /\ maxStackDepth (gbl_params s3) = maxStackDepth (gbl_params s2)
               /\ symbolTable (gbl_params s3) = symbolTable (gbl_params s2)
               /\ signals (gbl_params s3) = signals (gbl_params s2)
               /\ ThreadList s3 = ThreadList s2).
  { unfold s3. destruct (threadWaitTime (gbl_params s2) =? 0); repeat split. }
  assert (F4 : gbl_backtraceCapacity s4 = gbl_backtraceCapacity s3
               /\ maxStackDepth (gbl_params s4) = maxStackDepth (gbl_params s3)
               /\ symbolTable (gbl_params s4) = symbolTable (gbl_params s3)
               /\ signals (gbl_params s4) = signals (gbl_params s3)
               /\ ThreadList s4 = ThreadList s3).
  { unfold s4. destruct (debugLevel (gbl_params s3) =? 0); repeat split. }
  assert (F5 : exists d, s5 = set_debug_trace d s4).
  { unfold s5. destruct (symbolTable (gbl_params s4)) as [table|] eqn:Et.
    - match goal with
      | |- context [ValidateSymbolTable h ?x] =>
          destruct (ValidateSymbolTable_footprint h x) as (d & ->)
      end.
      eexists. reflexivity.
    - exists (debug_trace s4). destruct s4. reflexivity. }
  destruct F5 as (d5 & F5).
  assert (Hsig : signals (gbl_params s5) = signals p).
  { rewrite F5. cbn [gbl_params set_debug_trace].
    destruct F1 as (_ & _ & _ & G1 & _). destruct F2 as (_ & _ & _ & G2 & _).
    destruct F3 as (_ & _ & _ & G3 & _). destruct F4 as (_ & _ & _ & G4 & _).
    congruence. }
  rewrite Hsig.
  destruct (install_crash_handlers_returns h (signals p) Hterm s5) as (t & d & ->).
  eexists. split; [reflexivity|].
  rewrite F5. cbn.
  destruct F1 as (A1 & B1 & C1 & _ & D1). destruct F2 as (A2 & B2 & C2 & _ & D2).
  destruct F3 as (A3 & B3 & C3 & _ & D3). destruct F4 as (A4 & B4 & C4 & _ & D4).
  repeat split; congruence.
Qed.

(** The two conversions at work in [eCrash_Init] and [backtrace]. *)
Lemma to_uint_small (a : Z) : 0 <= a < 2 ^ 32 -> to_uint a = a.
Proof. intros H. unfold to_uint. apply Z.mod_small. exact H. Qed.

Lemma to_int_small (a : Z) : - 2 ^ 31 <= a < 2 ^ 31 -> to_int a = a.
Proof.
  intros H. unfold to_int. change (2 ^ 31) with 2147483648 in *.
  change (2 ^ 32) with 4294967296. rewrite Z.mod_small by lia. lia.
Qed.

(** A depth that is positive as an [int] leaves room for five more cells;
    any other depth captures nothing. *)
Lemma to_int_fits_to_uint (d : Z) : to_int d <= Z.max 0 (to_int d) <= to_uint (d + 5).
Proof.
  unfold to_int, to_uint. change (2 ^ 31) with 2147483648.
  change (2 ^ 32) with 4294967296.
  pose proof (Z.mod_pos_bound (d + 5) 4294967296 eq_refl) as H5.
  pose proof (Z.mod_pos_bound (d + 2147483648) 4294967296 eq_refl) as H31.
  pose proof (Z.div_mod (d + 5) 4294967296) as E5.
  pose proof (Z.div_mod (d + 2147483648) 4294967296) as E31.
  specialize (E5 ltac:(lia)). specialize (E31 ltac:(lia)).
  lia.
Qed.

(** What a capture stores: never more than the stack has, never more than
    the depth in force as an [int]. *)
Lemma backtrace_length (stack : list Z) (size : Z) :
  Z.of_nat (List.length (backtrace stack size))
  = Z.min (Z.max 0 (to_int size)) (Z.of_nat (List.length stack)).
Proof. unfold backtrace. rewrite length_firstn. lia. Qed.

Lemma createGlobalBacktrace_entries (env : Env) (self : pthread_t) (s : State) :
  gbl_backtraceEntries (createGlobalBacktrace env self s)
  = Z.of_nat (List.length (backtrace (env_stack env self) (maxStackDepth (gbl_params s))))
  /\ gbl_backtraceBuffer (createGlobalBacktrace env self s)
     = backtrace (env_stack env self) (maxStackDepth (gbl_params s))
  /\ gbl_backtraceCapacity (createGlobalBacktrace env self s) = gbl_backtraceCapacity s.
Proof.
  unfold createGlobalBacktrace.
  destruct (symbolTable (gbl_params (set_backtrace _ _ s)));
    [|destruct (useBacktraceSymbols (gbl_params (set_backtrace _ _ s)))];
    repeat split.
Qed.

(** The buffer holds what a capture stores, for every configuration,
    exactly when the header's default depth is at most 5 as an [int]. *)
Lemma eCrash_Init_buffer_fits_iff (h : eCrash_h) :
  (forall p name s s',
      filename p = Some name -> terminated (signals p) ->
      eCrash_Init h (Some p) s = Returns 0 s' ->
      to_int (maxStackDepth (gbl_params s')) <= gbl_backtraceCapacity s')
  <-> to_int (ECRASH_DEFAULT_STACK_DEPTH h) <= 5.
Proof.
  split.
  - intros H.
    destruct (@eCrash_Init_returns h sample_params "eCrash.out.filename" boot
                eq_refl)
      as (s' & Hret & Hcap & Hdepth & _).
    { unfold terminated. simpl. tauto. }
    specialize (H sample_params "eCrash.out.filename" boot s' eq_refl).
    assert (Hle : to_int (maxStackDepth (gbl_params s')) <= gbl_backtraceCapacity s').
    { apply H; [unfold terminated; simpl; tauto | exact Hret]. }
    rewrite Hcap, Hdepth in Hle. exact Hle.
  - intros Hd p name s s' Hname Hterm Hret.
    destruct (eCrash_Init_returns h p s Hname Hterm)
      as (s1 & Hret1 & Hcap & Hdepth & _).
    rewrite Hret in Hret1. injection Hret1 as <-.
    rewrite Hcap, Hdepth.
    destruct (Z.eqb_spec (maxStackDepth p) 0) as [E|E].
    + rewrite E. exact Hd.
    + pose proof (to_int_fits_to_uint (maxStackDepth p)). lia.
Qed.

(** C2.  When the header's default depth is above 5 and the caller leaves
    [maxStackDepth] at 0, [eCrash_Init] returns with a buffer of 5 cells and
    a depth in force equal to the default; a capture on a stack of more
    than 5 frames then stores past the end of the buffer.  (The default is
    a depth [backtrace] can take: it is below 2^31.) *)
Theorem eCrash_Init_default_depth_overruns_buffer (h : eCrash_h) (env : Env)
    (p : eCrashParameters) (name : string) (self : pthread_t) (s : State) :
  5 < ECRASH_DEFAULT_STACK_DEPTH h < 2 ^ 31 ->
  maxStackDepth p = 0 ->
  filename p = Some name -> terminated (signals p) ->
  (5 < List.length (env_stack env self))%nat ->
  exists s',
    eCrash_Init h (Some p) s = Returns 0 s'
    /\ gbl_backtraceCapacity s' = 5
    /\ maxStackDepth (gbl_params s') = ECRASH_DEFAULT_STACK_DEPTH h
    /\ stores_past_end (createGlobalBacktrace env self s').
Proof.
  intros Hdefault Hzero Hname Hterm Hstack.
  destruct (eCrash_Init_returns h p s Hname Hterm) as (s' & Hret & Hcap & Hdepth & _).
  rewrite Hzero in Hcap, Hdepth. cbn in Hcap, Hdepth.
  exists s'. repeat split; try assumption.
  unfold stores_past_end.
  destruct (createGlobalBacktrace_entries env self s') as (-> & _ & ->).
  rewrite backtrace_length, Hdepth, Hcap.
  rewrite to_int_small by (change (2 ^ 31) with 2147483648 in *; lia).
  lia.
Qed.

(** C3.  With a NULL [params] the call faults on its first read of
    [params->maxStackDepth]: it neither returns -1 nor traces its
    complaint about NULL parameters.  With a configuration whose
    [filename] is NULL it faults in [strdup]. *)
Theorem eCrash_Init_faults_before_its_checks (h : eCrash_h)
    (p : eCrashParameters) (s : State) :
  eCrash_Init h None s
  = Faults NullDereference
      (DPRINTF (ECRASH_DEBUG_VERY_VERBOSE h) ("Init Starting params = %p" ++ LF)%string s)
  /\ eCrash_Init h (Some (with_filename None p)) s
     = Faults NullDereference
         (set_gbl_params (with_filename None p)
            (set_gbl_backtraceCapacity (to_uint (maxStackDepth p + 5))
               (DPRINTF (ECRASH_DEBUG_VERY_VERBOSE h)
                        ("Init Starting params = %p" ++ LF)%string s))).
Proof. split; reflexivity. Qed.

(** The configuration of ecrash_test.c: initialisation succeeds. *)
Example eCrash_Init_sample :
  exists s', eCrash_Init sample_h (Some sample_params) boot = Returns 0 s'
             /\ gbl_backtraceCapacity s' = 5
             /\ maxStackDepth (gbl_params s') = 10
             /\ sigtable s' 11 = H_crash_handler.
Proof.
  destruct (eCrash_Init sample_h (Some sample_params) boot) as [a s'|f s'] eqn:E;
    vm_compute in E; [|discriminate].
  injection E as <- <-. eexists. split; [reflexivity|]. repeat split.
Qed.

(** *** Initialisation *)

Lemma crash_dispositions_at (array : list Z) :
  forall t sig,
    crash_dispositions array t sig
    = if catchable sig && existsb (Z.eqb sig) (before_sentinel array)
      then H_crash_handler else t sig.
Proof.
  induction array as [|signo rest IH]; intros t sig; cbn [crash_dispositions before_sentinel].
  - cbn. rewrite andb_false_r. reflexivity.
  - destruct (signo =? 0) eqn:E0.
    + cbn. rewrite andb_false_r. reflexivity.
    + rewrite IH. cbn [existsb].
      destruct (Z.eqb_spec sig signo) as [->|Hne].
      * cbn [orb]. rewrite andb_true_r.
        destruct (catchable signo) eqn:Ec.
        -- cbn [andb]. rewrite upd_same.
           destruct (existsb (Z.eqb signo) (before_sentinel rest)); reflexivity.
        -- reflexivity.
      * cbn [orb].
        destruct (catchable sig && existsb (Z.eqb sig) (before_sentinel rest));
          [reflexivity|].
        destruct (catchable signo); [|reflexivity].
        unfold upd. destruct (Z.eqb_spec sig signo); [contradiction | reflexivity].
Qed.

Lemma install_crash_handlers_effect (h : eCrash_h) (array : list Z) :
  terminated array ->
  forall s, exists d,
    install_crash_handlers h array s
    = Returns tt (set_sigtable (crash_dispositions array (sigtable s))
                               (set_debug_trace d s)).
Proof.
  induction array as [|signo rest IH]; intros Hin s; [destruct Hin|].
  cbn [install_crash_handlers crash_dispositions]. destruct (signo =? 0) eqn:E.
  - exists (debug_trace s). destruct s. reflexivity.
  - assert (Hrest : terminated rest) by (apply (In_terminated_cons Hin); lia).
    unfold bind at 1. unfold modify at 1. unfold bind at 1. unfold modify at 1.
    unfold signal. destruct (catchable signo).
    + cbn [snd].
      match goal with
      | |- context [install_crash_handlers h rest ?x] =>
          destruct (IH Hrest x) as (d & ->)
      end.
      eexists. reflexivity.
    + cbn [snd].
      match goal with
      | |- context [install_crash_handlers h rest ?x] =>
          destruct (IH Hrest x) as (d & ->)
      end.
      eexists. reflexivity.
Qed.

(** [eCrash_Init] up to its registration loop: the state the loop starts
    from is the caller's with the configuration copied in and completed,
    the buffer allocated, and debug lines traced. *)
Lemma eCrash_Init_upto_signals (h : eCrash_h) (p : eCrashParameters)
    (name : string) (s : State) :
  filename p = Some name ->
  exists d,
    eCrash_Init h (Some p) s
    = match install_crash_handlers h (signals p)
              (set_debug_trace d
                 (set_gbl_backtraceCapacity (to_uint (maxStackDepth p + 5))
                    (set_gbl_params (with_defaults h (with_filename (Some name) p)) s)))
      with
      | Returns _ s6 =>
          Returns 0 (DPRINTF (ECRASH_DEBUG_VERY_VERBOSE h)
                             ("Init Complete ret=%d" ++ LF)%string s6)
      | Faults f s' => Faults f s'
      end.
Proof.
  intros Hname. unfold eCrash_Init, with_defaults.
  cbv [bind modify ret gets deref option_map raise]. rewrite Hname.
  cbn [gbl_params set_gbl_params set_gbl_backtraceCapacity DPRINTF set_debug_trace
       maxStackDepth defaultBacktraceSignal threadWaitTime debugLevel symbolTable
       signals with_filename with_maxStackDepth with_defaultBacktraceSignal
       with_threadWaitTime with_debugLevel].
  destruct (maxStackDepth p =? 0);
    cbn [gbl_params set_gbl_params set_gbl_backtraceCapacity DPRINTF set_debug_trace
         maxStackDepth defaultBacktraceSignal threadWaitTime debugLevel symbolTable
         signals with_filename with_maxStackDepth with_defaultBacktraceSignal
         with_threadWaitTime with_debugLevel];
  destruct (defaultBacktraceSignal p =? 0);
    cbn [gbl_params set_gbl_params set_gbl_backtraceCapacity DPRINTF set_debug_trace
         maxStackDepth defaultBacktraceSignal threadWaitTime debugLevel symbolTable
         signals with_filename with_maxStackDepth with_defaultBacktraceSignal
         with_threadWaitTime with_debugLevel];
  destruct (threadWaitTime p =? 0);
    cbn [gbl_params set_gbl_params set_gbl_backtraceCapacity DPRINTF set_debug_trace
         maxStackDepth defaultBacktraceSignal threadWaitTime debugLevel symbolTable
         signals with_filename with_maxStackDepth with_defaultBacktraceSignal
         with_threadWaitTime with_debugLevel];
  destruct (debugLevel p =? 0);
    cbn [gbl_params set_gbl_params set_gbl_backtraceCapacity DPRINTF set_debug_trace
         maxStackDepth defaultBacktraceSignal threadWaitTime debugLevel symbolTable
         signals with_filename with_maxStackDepth with_defaultBacktraceSignal
         with_threadWaitTime with_debugLevel];
  (destruct (symbolTable p) as [table|];
   [ match goal with
     | |- context [ValidateSymbolTable h ?x] =>
         destruct (ValidateSymbolTable_footprint h x) as (d0 & ->)
     end
   | ]);
  lazymatch goal with
  | |- context [install_crash_handlers h ?a ?x] =>
      exists (debug_trace x);
      lazymatch goal with
      | |- _ = match install_crash_handlers h _ ?y with _ => _ end =>
          change (install_crash_handlers h a x)
            with (install_crash_handlers h (signals p) y)
      end
  end;
  destruct (install_crash_handlers h (signals p) _); reflexivity.
Qed.

(** What a successful [eCrash_Init] leaves behind, in full. *)
Lemma eCrash_Init_effect (h : eCrash_h) (p : eCrashParameters) (name : string)
    (s : State) :
  filename p = Some name -> terminated (signals p) ->
  exists d,
    eCrash_Init h (Some p) s
    = Returns 0
        (set_debug_trace d
           (set_sigtable (crash_dispositions (signals p) (sigtable s))
              (set_gbl_backtraceCapacity (to_uint (maxStackDepth p + 5))
                 (set_gbl_params (with_defaults h (with_filename (Some name) p)) s)))).
Proof.
  intros Hname Hterm.
  destruct (eCrash_Init_upto_signals h p s Hname) as (d & ->).
  match goal with
  | |- context [install_crash_handlers h (signals p) ?x] =>
      destruct (install_crash_handlers_effect h (signals p) Hterm x) as (d' & ->)
  end.
  eexists. reflexivity.
Qed.


(** X15.  [eCrash_Init] never returns a failure status: whenever it
    returns, it returns 0, and it was given a configuration with a file
    name.  (The branch that sets -1 for a NULL configuration is behind
    the first read through the pointer.) *)
Theorem eCrash_Init_never_returns_failure (h : eCrash_h)
    (params : option eCrashParameters) (s : State) (a : Z) (s' : State) :
  eCrash_Init h params s = Returns a s' ->
  a = 0 /\ exists p name, params = Some p /\ filename p = Some name.
Proof.
  intros Hret. destruct params as [p|]; [|discriminate Hret].
  destruct (filename p) as [name|] eqn:Hname.
  - destruct (eCrash_Init_upto_signals h p s Hname) as (d & Heq).
    rewrite Heq in Hret.
    destruct (install_crash_handlers h (signals p) _) as [u s6|f s6];
      [|discriminate Hret].
    injection Hret as <- _. split; [reflexivity|].
    exists p, name. split; [reflexivity | exact Hname].
  - unfold eCrash_Init in Hret.
    cbv [bind modify ret gets deref option_map raise] in Hret.
    rewrite Hname in Hret. discriminate Hret.
Qed.

(** X16.  After a successful [eCrash_Init] the disposition of a signal is
    [crash_handler] exactly when the signal stands in the [signals] array
    in front of the zero sentinel and can be caught; every other signal
    keeps the disposition it had. *)
Theorem eCrash_Init_installs_crash_handler (h : eCrash_h) (p : eCrashParameters)
    (name : string) (s : State) :
  filename p = Some name -> terminated (signals p) ->
  exists s',
    eCrash_Init h (Some p) s = Returns 0 s'
    /\ forall sig,
         sigtable s' sig
         = if catchable sig && existsb (Z.eqb sig) (before_sentinel (signals p))
           then H_crash_handler else sigtable s sig.
Proof.
  intros Hname Hterm.
  destruct (eCrash_Init_effect h p s Hname Hterm) as (d & ->).
  eexists. split; [reflexivity|].
  intros sig. cbn [sigtable set_debug_trace set_sigtable].
  apply crash_dispositions_at.
Qed.



(** X18.  Given a file name, a zero-terminated signal list and an explicit
    (non-zero) depth, [eCrash_Init] returns 0 and a capture made afterwards
    never stores past the end of the buffer: a depth that is positive as
    an [int] gets five cells more than it can fill, any other depth
    stores nothing.  (The allocation of the buffer is taken to succeed.) *)
Theorem eCrash_Init_buffer_fits_explicit_depth (h : eCrash_h) (env : Env)
    (p : eCrashParameters) (name : string) (self : pthread_t) (s : State) :
  filename p = Some name -> terminated (signals p) -> maxStackDepth p <> 0 ->
  exists s',
    eCrash_Init h (Some p) s = Returns 0 s'
    /\ gbl_backtraceCapacity s' = to_uint (maxStackDepth p + 5)
    /\ ~ stores_past_end (createGlobalBacktrace env self s').
Proof.
  intros Hname Hterm Hpos.
  destruct (eCrash_Init_returns h p s Hname Hterm) as (s' & Hret & Hcap & Hdepth & _).
  exists s'. split; [exact Hret|]. split; [exact Hcap|].
  destruct (Z.eqb_spec (maxStackDepth p) 0) as [E|_]; [contradiction|].
  unfold stores_past_end.
  destruct (createGlobalBacktrace_entries env self s') as (-> & _ & ->).
  rewrite backtrace_length, Hdepth, Hcap.
  pose proof (to_int_fits_to_uint (maxStackDepth p)). lia.
Qed.
(** *** Registration *)

(** A successful registration puts one node at the head of the list: the
    caller's, with the signal chosen and what [signal] returned for it. *)
Lemma eCrash_RegisterThread_success (h : eCrash_h) (self : pthread_t)
    (name : string) (signo : Z) (s : State) :
  fst (eCrash_RegisterThread h self name signo s) = 0 ->
  let s1 := snd (eCrash_RegisterThread h self name signo s) in
  let chosen := chosen_signal signo s in
  exists old,
    ThreadList s1
    = {| threadName := name; thread := self;
         backtraceSignal := chosen; oldHandler := old |} :: ThreadList s
    /\ gbl_params s1 = gbl_params s
    /\ ((catchable chosen = true /\ old = Handler (sigtable s chosen)
         /\ sigtable s1 = upd (sigtable s) chosen H_bt_handler)
        \/ (catchable chosen = false /\ old = SIG_ERR /\ sigtable s1 = sigtable s)).
Proof.
  unfold eCrash_RegisterThread, chosen_signal.
  set (chosen := if signo =? 0 then _ else signo).
  unfold signal, addThreadToList, malloc.
  destruct (catchable chosen) eqn:Ec;
    cbn [malloc_results set_sigtable];
    destruct (malloc_results s) as [|[|] rest];
    cbn [negb fst snd]; intros Hst; try discriminate Hst;
    eexists; (split; [reflexivity|]); (split; [reflexivity|]);
    (left; repeat split; congruence) || (right; repeat split; congruence).
Qed.


(** C10.  A registration whose allocation fails returns -1 and adds no
    node, yet the signal it chose, when it is one whose disposition
    [signal] can set (in range, neither SIGKILL nor SIGSTOP), is left with
    [bt_handler] as its disposition, whatever it was before; no other
    disposition changes. *)
Theorem register_failure_keeps_bt_handler (h : eCrash_h) (self : pthread_t)
    (name : string) (signo : Z) (s : State) (rest : list bool) :
  malloc_results s = false :: rest ->
  catchable (chosen_signal signo s) = true ->
  let r := eCrash_RegisterThread h self name signo s in
  fst r = -1
  /\ ThreadList (snd r) = ThreadList s
  /\ sigtable (snd r) (chosen_signal signo s) = H_bt_handler
  /\ (forall sig, sig <> chosen_signal signo s ->
                  sigtable (snd r) sig = sigtable s sig).
Proof.
  intros Hmalloc Hc. unfold eCrash_RegisterThread. fold (chosen_signal signo s).
  unfold signal. rewrite Hc. unfold addThreadToList, malloc.
  cbn [malloc_results set_sigtable]. rewrite Hmalloc.
  cbn [negb fst snd ThreadList set_malloc_results sigtable].
  repeat split.
  - apply upd_same.
  - intros sig Hne. cbn [sigtable set_sigtable]. unfold upd.
    destruct (Z.eqb_spec sig (chosen_signal signo s)); [contradiction | reflexivity].
Qed.

(** After a failed registration the thread is not in the list: undoing it
    finds nothing and restores nothing. *)
Example register_failure_then_unregister :
  let s := set_malloc_results [false]
             (set_gbl_params (with_defaultBacktraceSignal 12 zero_params) boot) in
  let r1 := eCrash_RegisterThread sample_h 7 "Thread 7" 0 s in
  let r2 := eCrash_UnregisterThread sample_h 7 (snd r1) in
  sigtable s 12 = SIG_DFL
  /\ fst r1 = -1 /\ sigtable (snd r1) 12 = H_bt_handler
  /\ fst r2 = -1 /\ sigtable (snd r2) 12 = H_bt_handler.
Proof. repeat split. Qed.

(** With allocations succeeding a registration succeeds. *)
Lemma eCrash_RegisterThread_ok (h : eCrash_h) (self : pthread_t) (name : string)
    (signo : Z) (s : State) :
  malloc_results s = [] ->
  fst (eCrash_RegisterThread h self name signo s) = 0
  /\ malloc_results (snd (eCrash_RegisterThread h self name signo s)) = [].
Proof.
  intros Hm. unfold eCrash_RegisterThread, signal, addThreadToList, malloc.
  destruct (catchable _); cbn [malloc_results set_sigtable]; rewrite Hm;
    cbn [negb fst snd malloc_results set_ThreadList DPRINTF set_debug_trace
         set_sigtable];
    split; (reflexivity || exact Hm).
Qed.


(** *** The thread list *)

Lemma removeThreadFromList_loop_found (t : pthread_t)
    (before : list ThreadListNode) (node : ThreadListNode)
    (after : list ThreadListNode) :
  Forall (fun n => thread n <> t) before -> thread node = t ->
  removeThreadFromList_loop t (before ++ node :: after)
  = (Some node, before ++ after).
Proof.
  intros Hbefore Hnode. induction Hbefore as [|n before Hn Hbefore IH].
  - cbn. destruct (Z.eqb_spec (thread node) t); [reflexivity | contradiction].
  - cbn [app removeThreadFromList_loop].
    destruct (Z.eqb_spec (thread n) t); [contradiction|].
    rewrite IH. reflexivity.
Qed.

Lemma removeThreadFromList_loop_not_found (t : pthread_t) (l : list ThreadListNode) :
  ~ In t (map thread l) -> removeThreadFromList_loop t l = (None, l).
Proof.
  induction l as [|n l IH]; intros Hnot; [reflexivity|].
  cbn [removeThreadFromList_loop].
  destruct (Z.eqb_spec (thread n) t) as [E|E].
  - exfalso. apply Hnot. left. exact E.
  - rewrite IH; [reflexivity|]. intros H. apply Hnot. right. exact H.
Qed.

Lemma first_node_of_thread (t : pthread_t) (l : list ThreadListNode) :
  In t (map thread l) ->
  exists before node after,
    l = before ++ node :: after
    /\ Forall (fun n => thread n <> t) before /\ thread node = t.
Proof.
  induction l as [|n l IH]; intros Hin; [destruct Hin|].
  destruct (Z.eq_dec (thread n) t) as [E|E].
  - exists [], n, l. repeat split; [constructor | exact E].
  - destruct Hin as [Hin|Hin]; [contradiction|].
    destruct (IH Hin) as (before & node & after & -> & Hb & Hn).
    exists (n :: before), node, after. repeat split; [constructor; assumption | exact Hn].
Qed.

(** Unregistering finds the first node of the calling thread, unlinks it
    and puts its saved handler back. *)
Lemma eCrash_UnregisterThread_found (h : eCrash_h) (self : pthread_t) (s : State)
    (before : list ThreadListNode) (node : ThreadListNode)
    (after : list ThreadListNode) :
  ThreadList s = before ++ node :: after ->
  Forall (fun n => thread n <> self) before -> thread node = self ->
  exists d,
    eCrash_UnregisterThread h self s
    = (0, set_debug_trace d
            (set_sigtable (restored (backtraceSignal node) (oldHandler node)
                                    (sigtable s))
               (set_ThreadList (before ++ after) s))).
Proof.
  intros Hlist Hbefore Hnode.
  unfold eCrash_UnregisterThread, removeThreadFromList.
  cbn [DPRINTF ThreadList set_debug_trace]. rewrite Hlist.
  rewrite (@removeThreadFromList_loop_found self before node after Hbefore Hnode).
  unfold signal, restored.
  destruct (oldHandler node) as [f|]; [destruct (catchable (backtraceSignal node))|];
    cbn [snd]; eexists; reflexivity.
Qed.

Lemma eCrash_UnregisterThread_not_found (h : eCrash_h) (self : pthread_t)
    (s : State) :
  ~ registered self s ->
  exists d, eCrash_UnregisterThread h self s = (-1, set_debug_trace d s).
Proof.
  intros Hnot. unfold eCrash_UnregisterThread, removeThreadFromList.
  cbn [DPRINTF ThreadList set_debug_trace].
  rewrite (@removeThreadFromList_loop_not_found self _ Hnot).
  eexists. destruct s. reflexivity.
Qed.

(** X19.  [eCrash_UnregisterThread] returns 0 when the calling thread has a
    node in the list and -1 when it has none; it returns nothing else. *)
Theorem unregister_status_iff (h : eCrash_h) (self : pthread_t) (s : State) :
  (fst (eCrash_UnregisterThread h self s) = 0 <-> registered self s)
  /\ (fst (eCrash_UnregisterThread h self s) = -1 <-> ~ registered self s).
Proof.
  destruct (in_dec Z.eq_dec self (map thread (ThreadList s))) as [Hin|Hnot].
  - destruct (@first_node_of_thread _ _ Hin) as (before & node & after & Hl & Hb & Hn).
    destruct (@eCrash_UnregisterThread_found h self s before node after Hl Hb Hn) as (d & ->).
    cbn [fst]. split; split; intros H; try exact Hin; try reflexivity;
      try discriminate. contradiction.
  - destruct (@eCrash_UnregisterThread_not_found h self s Hnot) as (d & ->).
    cbn [fst]. split; split; intros H; try exact Hnot; try reflexivity;
      try discriminate. contradiction.
Qed.

(** X20.  Unregistering a thread that has no node changes nothing: the
    list, every signal disposition and the configuration stay as they
    are; only debug lines are traced. *)
Theorem unregister_unknown_thread (h : eCrash_h) (self : pthread_t) (s : State) :
  ~ registered self s ->
  fst (eCrash_UnregisterThread h self s) = -1
  /\ snd (eCrash_UnregisterThread h self s)
     = set_debug_trace (debug_trace (snd (eCrash_UnregisterThread h self s))) s.
Proof.
  intros Hnot.
  destruct (@eCrash_UnregisterThread_not_found h self s Hnot) as (d & ->).
  split; reflexivity.
Qed.

(** X21.  Unregistering removes the first node of the calling thread and
    no other: the nodes in front of it and behind it stay, in their order.
    The signal of that node gets the handler the node had saved (if the
    signal can be caught and a handler was saved); no other disposition
    changes. *)
Theorem unregister_removes_first_node (h : eCrash_h) (self : pthread_t)
    (s : State) (before : list ThreadListNode) (node : ThreadListNode)
    (after : list ThreadListNode) :
  ThreadList s = before ++ node :: after ->
  Forall (fun n => thread n <> self) before -> thread node = self ->
  let r := eCrash_UnregisterThread h self s in
  fst r = 0
  /\ ThreadList (snd r) = before ++ after
  /\ sigtable (snd r)
     = restored (backtraceSignal node) (oldHandler node) (sigtable s)
  /\ forall sig, sig <> backtraceSignal node ->
                 sigtable (snd r) sig = sigtable s sig.
Proof.
  intros Hlist Hbefore Hnode.
  destruct (@eCrash_UnregisterThread_found h self s before node after Hlist Hbefore Hnode) as (d & ->).
  cbn [fst snd ThreadList sigtable set_debug_trace set_sigtable set_ThreadList].
  repeat split.
  intros sig Hne. unfold restored.
  destruct (oldHandler node) as [f|]; [|reflexivity].
  destruct (catchable (backtraceSignal node)); [|reflexivity].
  unfold upd. destruct (Z.eqb_spec sig (backtraceSignal node));
    [contradiction | reflexivity].
Qed.

(** The status of a registration is decided by the allocation alone. *)
Lemma eCrash_RegisterThread_status (h : eCrash_h) (self : pthread_t)
    (name : string) (signo : Z) (s : State) :
  fst (eCrash_RegisterThread h self name signo s)
  = if hd true (malloc_results s) then 0 else -1.
Proof.
  unfold eCrash_RegisterThread, signal, addThreadToList, malloc.
  destruct (catchable _); cbn [malloc_results set_sigtable];
    destruct (malloc_results s) as [|[|] rest]; reflexivity.
Qed.

(** X22.  A thread that was not registered registers and unregisters;
    a second unregistration finds nothing and returns -1. *)
Theorem unregister_twice (h : eCrash_h) (self : pthread_t) (name : string)
    (signo : Z) (s : State) :
  ~ registered self s ->
  fst (eCrash_RegisterThread h self name signo s) = 0 ->
  let s1 := snd (eCrash_RegisterThread h self name signo s) in
  let s2 := snd (eCrash_UnregisterThread h self s1) in
  fst (eCrash_UnregisterThread h self s1) = 0
  /\ fst (eCrash_UnregisterThread h self s2) = -1
  /\ ThreadList (snd (eCrash_UnregisterThread h self s2)) = ThreadList s.
Proof.
  intros Hnot Hok s1 s2.
  destruct (eCrash_RegisterThread_success h self name signo s Hok)
    as (old & Hlist & _ & _).
  fold s1 in Hlist.
  destruct (@eCrash_UnregisterThread_found h self s1 [] _ (ThreadList s) Hlist
              (Forall_nil _) eq_refl) as (d & Hun).
  assert (Hs2 : ThreadList s2 = ThreadList s) by (unfold s2; rewrite Hun; reflexivity).
  assert (Hnot2 : ~ registered self s2) by (unfold registered; rewrite Hs2; exact Hnot).
  destruct (@eCrash_UnregisterThread_not_found h self s2 Hnot2) as (d2 & Hun2).
  rewrite Hun, Hun2. cbn [fst snd ThreadList set_debug_trace].
  repeat split. exact Hs2.
Qed.

(** X23.  Two threads register with the same signal, then the first one
    unregisters.  The second thread is still in the list, but the signal
    is back to the disposition it had before the first registration:
    [bt_handler] is no longer installed for the thread that remains. *)
Theorem shared_signal_unregister_resets_handler (h : eCrash_h)
    (t1 t2 : pthread_t) (name1 name2 : string) (signo : Z) (s : State) :
  malloc_results s = [] -> signo <> 0 -> catchable signo = true -> t1 <> t2 ->
  let s1 := snd (eCrash_RegisterThread h t1 name1 signo s) in
  let s2 := snd (eCrash_RegisterThread h t2 name2 signo s1) in
  let r := eCrash_UnregisterThread h t1 s2 in
  fst r = 0
  /\ ThreadList (snd r)
     = {| threadName := name2; thread := t2; backtraceSignal := signo;
          oldHandler := Handler H_bt_handler |} :: ThreadList s
  /\ sigtable (snd r) signo = sigtable s signo.
Proof.
  intros Hm Hnz Hc Hne s1 s2 r.
  assert (Hchosen : forall st, chosen_signal signo st = signo).
  { intros st. unfold chosen_signal.
    destruct (Z.eqb_spec signo 0); [contradiction | reflexivity]. }
  destruct (eCrash_RegisterThread_ok h t1 name1 signo s Hm) as (Hok1 & Hm1).
  destruct (eCrash_RegisterThread_success h t1 name1 signo s Hok1)
    as (old1 & Hl1 & _ & Hsig1).
  fold s1 in Hl1, Hsig1, Hm1. rewrite Hchosen in Hl1, Hsig1.
  destruct Hsig1 as [(_ & -> & Ht1)|(Hc' & _)]; [|congruence].
  destruct (eCrash_RegisterThread_ok h t2 name2 signo s1 Hm1) as (Hok2 & _).
  destruct (eCrash_RegisterThread_success h t2 name2 signo s1 Hok2)
    as (old2 & Hl2 & _ & Hsig2).
  fold s2 in Hl2, Hsig2. rewrite Hchosen in Hl2, Hsig2.
  destruct Hsig2 as [(_ & -> & Ht2)|(Hc' & _)]; [|congruence].
  rewrite Ht1, upd_same in Hl2. rewrite Hl1 in Hl2.
  destruct (@eCrash_UnregisterThread_found h t1 s2
              [{| threadName := name2; thread := t2; backtraceSignal := signo;
                  oldHandler := Handler H_bt_handler |}]
              {| threadName := name1; thread := t1; backtraceSignal := signo;
                 oldHandler := Handler (sigtable s signo) |}
              (ThreadList s) Hl2) as (d & Hun).
  { constructor; [cbn; congruence | constructor]. }
  { reflexivity. }
  unfold r. rewrite Hun.
  cbn [fst snd ThreadList sigtable set_debug_trace set_sigtable set_ThreadList
       backtraceSignal oldHandler app].
  repeat split. unfold restored. rewrite Hc. apply upd_same.
Qed.

(** X24.  Registering with a signal whose disposition cannot be set (such
    as SIGKILL) still succeeds when the allocation does: the node is added
    with the error value of [signal] as its saved handler, and no
    disposition changes. *)
Theorem register_uncatchable_signal (h : eCrash_h) (self : pthread_t)
    (name : string) (signo : Z) (s : State) :
  catchable (chosen_signal signo s) = false ->
  hd true (malloc_results s) = true ->
  let r := eCrash_RegisterThread h self name signo s in
  fst r = 0
  /\ ThreadList (snd r)
     = {| threadName := name; thread := self;
          backtraceSignal := chosen_signal signo s; oldHandler := SIG_ERR |}
       :: ThreadList s
  /\ sigtable (snd r) = sigtable s.
Proof.
  intros Hc Hm r.
  assert (Hok : fst r = 0)
    by (unfold r; rewrite eCrash_RegisterThread_status, Hm; reflexivity).
  destruct (eCrash_RegisterThread_success h self name signo s Hok)
    as (old & Hlist & _ & Hsig).
  destruct Hsig as [(Hc' & _)|(_ & -> & Ht)]; [congruence|].
  repeat split; assumption.
Qed.

Lemma unregister_all_app (h : eCrash_h) (l1 l2 : list pthread_t) :
  forall s,
    unregister_all h (l1 ++ l2) s = unregister_all h l2 (unregister_all h l1 s).
Proof.
  induction l1 as [|t l1 IH]; intros s; [reflexivity|].
  cbn [app unregister_all]. apply IH.
Qed.

(** X25.  Threads register one after the other and unregister in the
    reverse order: every signal is back to the disposition it had before
    the first registration, and the list is as it was. *)
Theorem unregister_all_restores (h : eCrash_h)
    (regs : list (pthread_t * string * Z)) (s : State) :
  malloc_results s = [] ->
  let s1 := register_all h regs s in
  let s2 := unregister_all h (rev (map (fun r => fst (fst r)) regs)) s1 in
  (forall sig, sigtable s2 sig = sigtable s sig)
  /\ ThreadList s2 = ThreadList s.
Proof.
  revert s. induction regs as [|[[t name] signo] rest IH]; intros s Hm.
  - split; reflexivity.
  - cbn [register_all map rev fst]. cbv zeta. rewrite unregister_all_app.
    destruct (eCrash_RegisterThread_ok h t name signo s Hm) as (Hok & Hm').
    destruct (eCrash_RegisterThread_success h t name signo s Hok)
      as (old & Hlist & _ & Hsig).
    set (sA := snd (eCrash_RegisterThread h t name signo s)) in *.
    destruct (IH sA Hm') as (IHsig & IHlist). cbv zeta in IHsig, IHlist.
    set (sB := unregister_all h (rev (map (fun r => fst (fst r)) rest))
                              (register_all h rest sA)) in *.
    rewrite Hlist in IHlist.
    cbn [unregister_all].
    destruct (@eCrash_UnregisterThread_found h t sB [] _ (ThreadList s) IHlist
                (Forall_nil _) eq_refl) as (d & ->).
    cbn [snd ThreadList sigtable set_debug_trace set_sigtable set_ThreadList
         backtraceSignal oldHandler app].
    split; [|reflexivity].
    intros sig. unfold restored.
    destruct Hsig as [(Hc & -> & Ht)|(Hc & -> & Ht)].
    + rewrite Hc. unfold upd.
      destruct (Z.eqb_spec sig (chosen_signal signo s)) as [->|Hne]; [reflexivity|].
      rewrite IHsig, Ht. unfold upd.
      destruct (Z.eqb_spec sig (chosen_signal signo s)); [contradiction | reflexivity].
    + rewrite IHsig, Ht. reflexivity.
Qed.

(** *** Waiting for the other threads *)

Lemma same_capture_refl (s : State) : same_capture s s.
Proof. repeat split. Qed.





(** What [bt_handler] does. *)
Lemma bt_handler_effect (env : Env) (t : pthread_t) (s : State) :
  quiet s (bt_handler env t s)
  /\ same_capture (createGlobalBacktrace env t s) (bt_handler env t s)
  /\ gbl_backtraceDoneFlag (bt_handler env t s) = 1
  /\ pending (bt_handler env t s) = pending s
  /\ sent (bt_handler env t s) = sent s
  /\ clock (bt_handler env t s) = clock s.
Proof.
  unfold bt_handler.
  destruct (createGlobalBacktrace_quiet env t s) as (A & B & C & D & E & F & G).
  destruct (createGlobalBacktrace_cells env t s) as (_ & _ & _ & P & Q & R).
  repeat split; assumption.
Qed.


(** Whatever becomes of a signal, taking it leaves the report alone. *)
Lemma deliver_frame (env : Env) (t : pthread_t) (signo : Z) (s : State) :
  quiet s (state_of (deliver env t signo s))
  /\ pending (state_of (deliver env t signo s)) = pending s
  /\ sent (state_of (deliver env t signo s)) = sent s
  /\ clock (state_of (deliver env t signo s)) = clock s.
Proof.
  unfold deliver.
  destruct (if catchable signo then sigtable s signo else SIG_DFL);
    try destruct (default_action signo); cbn [state_of];
    first [ split; [apply quiet_refl | repeat split]
          | destruct (bt_handler_effect env t s) as (A & _ & _ & B & C & D);
            split; [exact A | repeat split; assumption] ].
Qed.


(** [pthread_kill] is traced; whatever the signal does, sending it leaves
    the report alone. *)
Lemma pthread_kill_frame (env : Env) (t : pthread_t) (signo : Z) (s : State) :
  quiet s (state_of (pthread_kill env t signo s))
  /\ sent (state_of (pthread_kill env t signo s)) = sent s ++ [(t, signo)]
  /\ clock (state_of (pthread_kill env t signo s)) = clock s.
Proof.
  unfold pthread_kill.
  set (s0 := set_sent _ s).
  assert (Q0 : quiet s s0) by repeat split.
  destruct ((signo <? 1) || (NSIG <=? signo) || (signo =? 32) || (signo =? 33));
    [repeat split|].
  destruct (deliver_frame env t signo s0) as (Q & _ & S & C).
  destruct ((signo =? SIGKILL) || (signo =? SIGSTOP)).
  { split; [exact (quiet_trans Q0 Q)|]. rewrite S, C. split; reflexivity. }
  destruct (env_latency env t) as [[|d]|].
  - split; [exact (quiet_trans Q0 Q)|]. rewrite S, C. split; reflexivity.
  - repeat split.
  - repeat split.
Qed.

Lemma run_pending_frame (env : Env) (ps : list (pthread_t * Z * nat)) :
  forall s,
    quiet s (state_of (run_pending env ps s))
    /\ sent (state_of (run_pending env ps s)) = sent s
    /\ clock (state_of (run_pending env ps s)) = clock s.
Proof.
  induction ps as [|[[t signo] d] rest IH]; intros s; cbn [run_pending].
  - repeat split.
  - assert (Hdue : quiet s (state_of (and_then (deliver env t signo s)
                                               (run_pending env rest)))
                   /\ sent (state_of (and_then (deliver env t signo s)
                                               (run_pending env rest))) = sent s
                   /\ clock (state_of (and_then (deliver env t signo s)
                                                (run_pending env rest))) = clock s).
    { destruct (deliver_frame env t signo s) as (Q & _ & S & C).
      destruct (deliver env t signo s) as [s1|e s1]; cbn [and_then state_of] in *.
      - destruct (IH s1) as (Q' & S' & C').
        split; [exact (quiet_trans Q Q') | split; congruence].
      - auto. }
    destruct d as [|[|d']]; try exact Hdue.
    destruct (IH s) as (Q & S & C).
    destruct (run_pending env rest s) as [s1|e s1]; cbn [and_then state_of] in *.
    + split; [|split; assumption].
      eapply quiet_trans; [exact Q | repeat split].
    + auto.
Qed.

(** [sleep(1)]: a second passes. *)
Lemma sleep_1_frame (env : Env) (s : State) :
  quiet s (state_of (sleep_1 env s))
  /\ sent (state_of (sleep_1 env s)) = sent s
  /\ clock (state_of (sleep_1 env s)) = S (clock s).
Proof.
  unfold sleep_1.
  destruct (run_pending_frame env (pending s)
              (set_pending [] (set_clock (S (clock s)) s))) as (Q & S & C).
  split; [|split; assumption].
  eapply quiet_trans; [|exact Q]. repeat split.
Qed.


(** A wait that ends with the flag still clear has lasted its whole
    budget. *)
Lemma wait_for_flag_timed_out (env : Env) (n : nat) :
  forall s s1,
    wait_for_flag env n s = Running s1 -> gbl_backtraceDoneFlag s1 = 0 ->
    clock s1 = (clock s + n)%nat.
Proof.
  induction n as [|n IH]; intros s s1 Hrun Hflag; cbn [wait_for_flag] in Hrun.
  - injection Hrun as <-. lia.
  - destruct (Z.eqb_spec (gbl_backtraceDoneFlag s) 0) as [E|E]; cbn [negb] in Hrun.
    + pose proof (sleep_1_frame env s) as (_ & _ & C).
      destruct (sleep_1 env s) as [s2|e s2]; cbn [and_then state_of] in *;
        [|discriminate Hrun].
      rewrite (IH s2 s1 Hrun Hflag), C. lia.
    + injection Hrun as <-. contradiction.
Qed.



(** A rendezvous that ends with the flag clear has waited the whole
    budget. *)
Lemma rendezvous_timed_out_clock (env : Env) (probe : ThreadListNode)
    (s s1 : State) :
  rendezvous env probe s = Running s1 -> gbl_backtraceDoneFlag s1 = 0 ->
  clock s1 = (clock s + Z.to_nat (threadWaitTime (gbl_params s)))%nat.
Proof.
  unfold rendezvous. intros Hrun Hflag.
  set (s0 := set_gbl_backtraceDoneFlag 0 s) in *.
  destruct (pthread_kill_frame env (thread probe) (backtraceSignal probe) s0)
    as (Q & _ & C).
  destruct (pthread_kill env (thread probe) (backtraceSignal probe) s0)
    as [s2|e s2]; cbn [and_then state_of] in *; [|discriminate Hrun].
  rewrite (wait_for_flag_timed_out env _ s2 Hrun Hflag), C.
  destruct Q as (_ & -> & _). reflexivity.
Qed.


(** Waiting while no signal is on its way: nothing happens. *)
Lemma wait_for_flag_nothing_pending (env : Env) (n : nat) :
  forall s,
    pending s = [] -> gbl_backtraceDoneFlag s = 0 ->
    exists s',
      wait_for_flag env n s = Running s'
      /\ same_capture s s' /\ gbl_backtraceDoneFlag s' = 0 /\ pending s' = [].
Proof.
  induction n as [|n IH]; intros s Hp Hflag; cbn [wait_for_flag].
  - exists s. repeat split; assumption.
  - rewrite Hflag. cbn [Z.eqb negb]. unfold sleep_1. rewrite Hp.
    cbn [run_pending and_then].
    destruct (IH (set_pending [] (set_clock (S (clock s)) s)) eq_refl Hflag)
      as (s' & Hrun & Hcap & Hf & Hp').
    exists s'. repeat split; try assumption; apply Hcap.
Qed.

(** Waiting while one signal is on its way and not yet due. *)
Lemma wait_for_flag_not_due (env : Env) (t : pthread_t) (signo : Z) (n : nat) :
  forall d s,
    pending s = [(t, signo, S d)] -> (n <= d)%nat -> gbl_backtraceDoneFlag s = 0 ->
    exists s',
      wait_for_flag env n s = Running s'
      /\ same_capture s s' /\ gbl_backtraceDoneFlag s' = 0
      /\ pending s' = [(t, signo, S (d - n))].
Proof.
  induction n as [|n IH]; intros d s Hp Hle Hflag; cbn [wait_for_flag].
  - exists s. rewrite Nat.sub_0_r. repeat split; assumption.
  - rewrite Hflag. cbn [Z.eqb negb]. unfold sleep_1. rewrite Hp.
    destruct d as [|d]; [lia|].
    cbn [run_pending and_then pending set_pending].
    destruct (IH d (set_pending [(t, signo, S d)]
                      (set_pending [] (set_clock (S (clock s)) s)))
                eq_refl ltac:(lia) Hflag)
      as (s' & Hrun & Hcap & Hf & Hp').
    exists s'. repeat split; try assumption; apply Hcap.
Qed.




(** The rendezvous with a thread that does not take the signal within the
    budget. *)
Lemma rendezvous_unanswered (env : Env) (probe : ThreadListNode) (s : State) :
  pending s = [] ->
  backtraceSignal probe <> SIGKILL -> backtraceSignal probe <> SIGSTOP ->
  env_latency env (thread probe) = None
  \/ (exists d, env_latency env (thread probe) = Some (S d)
                /\ (Z.to_nat (threadWaitTime (gbl_params s)) <= d)%nat) ->
  exists s',
    rendezvous env probe s = Running s'
    /\ same_capture s s' /\ gbl_backtraceDoneFlag s' = 0
    /\ (pending s' = []
        \/ exists d, env_latency env (thread probe) = Some (S d)
                     /\ pending s'
                        = [(thread probe, backtraceSignal probe,
                            S (d - Z.to_nat (threadWaitTime (gbl_params s))))]).
Proof.
  intros Hp Hkill Hstop Hwhy. unfold rendezvous, pthread_kill.
  set (s0 := set_sent _ (set_gbl_backtraceDoneFlag 0 s)).
  assert (Hquiet : exists s',
             wait_for_flag env (Z.to_nat (threadWaitTime (gbl_params s0))) s0
             = Running s'
             /\ same_capture s s' /\ gbl_backtraceDoneFlag s' = 0
             /\ pending s' = []).
  { destruct (@wait_for_flag_nothing_pending env
                (Z.to_nat (threadWaitTime (gbl_params s0))) s0 Hp eq_refl)
      as (s' & Hrun & Hc & Hf & Hp').
    exists s'. repeat split; try assumption; apply Hc. }
  destruct ((backtraceSignal probe <? 1) || (NSIG <=? backtraceSignal probe)
            || (backtraceSignal probe =? 32) || (backtraceSignal probe =? 33)).
  { destruct Hquiet as (s' & Hrun & Hc & Hf & Hp').
    exists s'. cbn [and_then]. auto. }
  destruct (Z.eqb_spec (backtraceSignal probe) SIGKILL); [contradiction|].
  destruct (Z.eqb_spec (backtraceSignal probe) SIGSTOP); [contradiction|].
  cbn [orb].
  destruct Hwhy as [Hlat|(d & Hlat & Hd)]; rewrite Hlat.
  - destruct Hquiet as (s' & Hrun & Hc & Hf & Hp').
    exists s'. cbn [and_then]. auto.
  - cbn [and_then].
    assert (Hp0 : pending s0 = []) by exact Hp. rewrite Hp0. cbn [app].
    match goal with
    | |- context [threadWaitTime (gbl_params ?x)] =>
        change (gbl_params x) with (gbl_params s)
    end.
    set (s1 := set_pending _ s0).
    destruct (@wait_for_flag_not_due env (thread probe) (backtraceSignal probe)
                (Z.to_nat (threadWaitTime (gbl_params s))) d s1 eq_refl Hd eq_refl)
      as (s' & Hrun & Hc & Hf & Hp').
    exists s'. split; [exact Hrun|]. split; [|split; [exact Hf|]].
    + repeat split; apply Hc.
    + right. exists d. split; [reflexivity | exact Hp'].
Qed.

(** X27.  A thread that never takes the signal, or takes it only after the
    wait budget, times out, whatever the disposition of its signal (which
    is neither SIGKILL nor SIGSTOP): the rendezvous ends with the flag
    clear and the shared buffer untouched, after a wait of the whole
    budget. *)
Theorem rendezvous_times_out (env : Env) (probe : ThreadListNode) (s : State) :
  pending s = [] ->
  backtraceSignal probe <> SIGKILL -> backtraceSignal probe <> SIGSTOP ->
  env_latency env (thread probe) = None
  \/ (exists d, env_latency env (thread probe) = Some d
                /\ (Z.to_nat (threadWaitTime (gbl_params s)) < d)%nat) ->
  exists s',
    rendezvous env probe s = Running s'
    /\ gbl_backtraceDoneFlag s' = 0
    /\ gbl_backtraceBuffer s' = gbl_backtraceBuffer s
    /\ gbl_backtraceEntries s' = gbl_backtraceEntries s
    /\ clock s' = (clock s + Z.to_nat (threadWaitTime (gbl_params s)))%nat.
Proof.
  intros Hp Hkill Hstop Hwhy.
  assert (Hwhy' : env_latency env (thread probe) = None
                  \/ (exists d, env_latency env (thread probe) = Some (S d)
                                /\ (Z.to_nat (threadWaitTime (gbl_params s)) <= d)%nat)).
  { destruct Hwhy as [H|(d & H & Hd)]; [left; exact H|].
    destruct d as [|d]; [lia|]. right. exists d. split; [exact H | lia]. }
  destruct (rendezvous_unanswered env probe s Hp Hkill Hstop Hwhy')
    as (s' & Hrun & (Hbuf & Hent & _) & Hflag & _).
  exists s'. repeat split; try assumption.
  exact (rendezvous_timed_out_clock env probe s Hrun Hflag).
Qed.
(** *** The sections of the other threads *)










Lemma thread_header_text (probe : ThreadListNode) :
  call_text (thread_header probe)
  = Some ("*  Backtrace of " ++ DQ ++ threadName probe ++ DQ
          ++ " (0x" ++ conv_p (thread probe) ++ ")" ++ LF)%string.
Proof. reflexivity. Qed.

Example thread_error_text_sample :
  call_text (thread_error (sample_node 3 "Thread 3" H_bt_handler))
  = Some ("*  Error: unable to get backtrace of " ++ DQ ++ "Thread 3" ++ DQ
          ++ " (0x0x3)" ++ LF)%string.
Proof. reflexivity. Qed.

(** The separator line is a star and a line feed, in a line buffer that
    has room for it. *)
Lemma line_separator (h : eCrash_h) :
  3 < MAX_LINE_LEN h -> line h separator = ("*" ++ LF)%string.
Proof.
  intros H. unfold line. cbn.
  destruct (Z.ltb_spec 2 (MAX_LINE_LEN h - 1)); [reflexivity | lia].
Qed.






(** *** All the sections *)





(** *** The report *)














(* ================================================================== *)
(** ** The properties at work on the sample process *)




Lemma eCrash_Init_default_depth_overruns_buffer_witness :
  5 < ECRASH_DEFAULT_STACK_DEPTH sample_h < 2 ^ 31
  /\ maxStackDepth sample_params = 0
  /\ exists s',
       eCrash_Init sample_h (Some sample_params) boot = Returns 0 s'
       /\ gbl_backtraceCapacity s' = 5
       /\ maxStackDepth (gbl_params s') = ECRASH_DEFAULT_STACK_DEPTH sample_h
       /\ stores_past_end (createGlobalBacktrace deep_env 1 s').
Proof.
  assert (Hd : 5 < ECRASH_DEFAULT_STACK_DEPTH sample_h < 2 ^ 31)
    by (simpl; lia).
  split; [exact Hd|]. split; [reflexivity|].
  apply (@eCrash_Init_default_depth_overruns_buffer
           sample_h deep_env sample_params "eCrash.out.filename" 1 boot).
  - exact Hd.
  - reflexivity.
  - reflexivity.
  - unfold terminated. simpl. tauto.
  - simpl. lia.
Defined.






Lemma register_failure_keeps_bt_handler_witness :
  let s := set_malloc_results [false] sample_state in
  let r := eCrash_RegisterThread sample_h 1 "Thread 1" 0 s in
  sigtable s 12 = SIG_DFL
  /\ fst r = -1
  /\ ThreadList (snd r) = ThreadList s
  /\ sigtable (snd r) (chosen_signal 0 s) = H_bt_handler
  /\ (forall sig, sig <> chosen_signal 0 s -> sigtable (snd r) sig = sigtable s sig).
Proof.
  intros s r.
  split; [vm_compute; reflexivity|].
  apply (@register_failure_keeps_bt_handler sample_h 1 "Thread 1" 0 s []).
  - reflexivity.
  - vm_compute. reflexivity.
Defined.

Lemma register_failure_keeps_bt_handler_counterexample :
  let s := set_malloc_results [false] sample_state in
  let r := eCrash_RegisterThread sample_h 1 "Thread 1" 9 s in
  malloc_results s = [false]
  /\ chosen_signal 9 s = SIGKILL
  /\ sigtable s SIGKILL = SIG_DFL
  /\ fst r = -1
  /\ ThreadList (snd r) = ThreadList s
  /\ sigtable (snd r) SIGKILL = SIG_DFL.
Proof.
  intros s r.
  split; [vm_compute; reflexivity|]. split; [vm_compute; reflexivity|].
  split; [vm_compute; reflexivity|]. split; [vm_compute; reflexivity|].
  split; vm_compute; reflexivity.
Qed.

Lemma blockingWrite_touches_one_descriptor_witness :
  2 <> 3
  /\ fds (snd (blockingWrite "abcd" 4 3 boot)) 2 = fds boot 2
  /\ snd (blockingWrite "abcd" 4 3 boot)
     = set_fds (fds (snd (blockingWrite "abcd" 4 3 boot))) boot.
Proof.
  assert (H : 2 <> 3) by discriminate.
  exact (conj H (@blockingWrite_touches_one_descriptor "abcd" 4 3 2 boot H)).
Defined.

Lemma blockingWrite_bad_descriptor_witness :
  (forall c, fds boot 9 = Some c -> chan_open c = false)
  /\ fst (blockingWrite "abcd" 4 9 boot) = 0
  /\ option_map chan_received (fds (snd (blockingWrite "abcd" 4 9 boot)) 9)
     = option_map chan_received (fds boot 9).
Proof.
  assert (H : forall c, fds boot 9 = Some c -> chan_open c = false)
    by (intros c Hc; discriminate Hc).
  exact (conj H (@blockingWrite_bad_descriptor "abcd" 4 9 boot H)).
Defined.

Lemma blockingWrite_first_write_takes_all_witness :
  fds boot 3 = Some (fresh_channel [])
  /\ fst (blockingWrite "abcd" (Z.of_nat (String.length "abcd")) 3 boot)
     = Z.of_nat (String.length "abcd")
  /\ fds (snd (blockingWrite "abcd" (Z.of_nat (String.length "abcd")) 3 boot)) 3
     = Some {| chan_script := tl (chan_script (fresh_channel []));
               chan_received := (chan_received (fresh_channel []) ++ "abcd")%string;
               chan_open := true |}.
Proof.
  split; [reflexivity|].
  apply (@blockingWrite_first_write_takes_all "abcd" 3 boot (fresh_channel [])).
  - reflexivity.
  - reflexivity.
  - intros r rest H. discriminate H.
  - discriminate.
Defined.

Lemma blockingWrite_two_writes_witness :
  chan_script (fresh_channel [2; 2])
  = [Z.of_nat 2; Z.of_nat (String.length "abcd" - 2)]
  /\ fst (blockingWrite "abcd" (Z.of_nat (String.length "abcd")) 3
            (with_descriptor 3 [2; 2] boot))
     = Z.of_nat (String.length "abcd")
  /\ option_map chan_received
       (fds (snd (blockingWrite "abcd" (Z.of_nat (String.length "abcd")) 3
                    (with_descriptor 3 [2; 2] boot))) 3)
     = Some (chan_received (fresh_channel [2; 2]) ++ substring 0 2 "abcd"
             ++ substring 0 (String.length "abcd" - 2) "abcd")%string.
Proof.
  split; [reflexivity|].
  apply (@blockingWrite_two_writes "abcd" 2 3 (with_descriptor 3 [2; 2] boot)
           (fresh_channel [2; 2])).
  - reflexivity.
  - reflexivity.
  - reflexivity.
  - simpl. lia.
Defined.

Lemma outputPrintf_line_too_long_witness :
  format_text fmt_stars [] = Some fmt_stars
  /\ outputPrintf narrow_h fmt_stars [] boot
     = (-1, set_emitted (emitted boot ++ [call fmt_stars []]) boot).
Proof.
  split; [reflexivity|].
  apply (@outputPrintf_line_too_long narrow_h fmt_stars [] boot).
  intros text H. vm_compute in H. injection H as <-. simpl. lia.
Defined.

Lemma outputFini_closes_descriptors_witness :
  fds sample_opened 3 = Some (fresh_channel [])
  /\ 3 = gbl_fd sample_opened
  /\ fds (outputFini sample_opened) 3 = Some (chan_close (fresh_channel [])).
Proof.
  split; [reflexivity|]. split; [reflexivity|].
  apply (@outputFini_closes_descriptors 3 (fresh_channel []) sample_opened).
  - reflexivity.
  - lia.
  - left. reflexivity.
Defined.

Lemma outputPrintf_descriptor_only_witness :
  filename (gbl_params (set_gbl_params descriptor_only boot)) = None
  /\ format_text fmt_separator [] = Some fmt_separator
  /\ fst (outputPrintf sample_h fmt_separator []
            (set_gbl_params descriptor_only boot)) = -4
  /\ option_map chan_received
       (fds (snd (outputPrintf sample_h fmt_separator []
                    (set_gbl_params descriptor_only boot)))
            (fd (gbl_params (set_gbl_params descriptor_only boot))))
     = Some (chan_received (fresh_channel []) ++ fmt_separator)%string.
Proof.
  split; [reflexivity|]. split; [reflexivity|].
  apply (@outputPrintf_descriptor_only sample_h fmt_separator [] fmt_separator
           (set_gbl_params descriptor_only boot) (fresh_channel [])).
  - reflexivity.
  - reflexivity.
  - discriminate.
  - reflexivity.
  - reflexivity.
  - reflexivity.
  - reflexivity.
  - discriminate.
  - simpl. lia.
Defined.

Lemma lookupClosestSymbol_stops_at_first_above_witness :
  symbols unsorted_table
  = [ {| function := "f"; address := 256 |} ]
    ++ {| function := "g"; address := 512 |}
       :: [ {| function := "e"; address := 300 |} ]
  /\ lookupClosestSymbol unsorted_table 336
     = last_symbol [ {| function := "f"; address := 256 |} ].
Proof.
  split; [reflexivity|].
  apply (@lookupClosestSymbol_stops_at_first_above unsorted_table
           [ {| function := "f"; address := 256 |} ]
           {| function := "g"; address := 512 |}
           [ {| function := "e"; address := 300 |} ] 336).
  - reflexivity.
  - constructor; [simpl; lia | constructor].
  - simpl. lia.
Defined.

Lemma outputFrame_raw_pointer_witness :
  symbolTable (gbl_params sample_captured) = Some sample_table
  /\ emitted (outputFrame sample_h 0 sample_captured)
     = emitted sample_captured
       ++ [call fmt_frame_pointer
             [ANum 0; ANum (nth (Z.to_nat 0) (gbl_backtraceBuffer sample_captured) 0)]]
  /\ call_text (call fmt_frame_pointer
                  [ANum 0; ANum (nth (Z.to_nat 0)
                                     (gbl_backtraceBuffer sample_captured) 0)])
     = Some ("*      Frame " ++ conv_02d 0 ++ ": "
             ++ conv_p (nth (Z.to_nat 0) (gbl_backtraceBuffer sample_captured) 0)
             ++ LF)%string.
Proof.
  split; [reflexivity|].
  apply (@outputFrame_raw_pointer sample_h 0 sample_captured).
  right. right.
  exists sample_table, {| function := "f"; address := 256 |},
         [ {| function := "g"; address := 512 |} ].
  repeat split.
Defined.

Lemma eCrash_Init_never_returns_failure_witness :
  eCrash_Init sample_h (Some sample_params) boot = Returns 0 sample_state
  /\ 0 = 0
  /\ exists p name, Some sample_params = Some p /\ filename p = Some name.
Proof.
  assert (H : eCrash_Init sample_h (Some sample_params) boot
              = Returns 0 sample_state) by (vm_compute; reflexivity).
  exact (conj H (@eCrash_Init_never_returns_failure sample_h (Some sample_params)
                   boot 0 sample_state H)).
Defined.

Lemma eCrash_Init_installs_crash_handler_witness :
  filename sample_params = Some "eCrash.out.filename"
  /\ terminated (signals sample_params)
  /\ exists s',
       eCrash_Init sample_h (Some sample_params) boot = Returns 0 s'
       /\ forall sig,
            sigtable s' sig
            = if catchable sig
                 && existsb (Z.eqb sig) (before_sentinel (signals sample_params))
              then H_crash_handler else sigtable boot sig.
Proof.
  assert (Hn : filename sample_params = Some "eCrash.out.filename") by reflexivity.
  assert (Ht : terminated (signals sample_params))
    by (unfold terminated; simpl; tauto).
  exact (conj Hn (conj Ht
           (@eCrash_Init_installs_crash_handler sample_h sample_params
              "eCrash.out.filename" boot Hn Ht))).
Defined.


Lemma unregister_unknown_thread_witness :
  ~ registered 7 sample_registered
  /\ fst (eCrash_UnregisterThread sample_h 7 sample_registered) = -1
  /\ snd (eCrash_UnregisterThread sample_h 7 sample_registered)
     = set_debug_trace
         (debug_trace (snd (eCrash_UnregisterThread sample_h 7 sample_registered)))
         sample_registered.
Proof.
  assert (H : ~ registered 7 sample_registered).
  { intros H. vm_compute in H. intuition discriminate. }
  exact (conj H (@unregister_unknown_thread sample_h 7 sample_registered H)).
Defined.

Lemma unregister_removes_first_node_witness :
  ThreadList sample_registered
  = [sample_node 3 "Thread 3" H_bt_handler]
    ++ sample_node 2 "Thread 2" H_bt_handler
       :: [sample_node 1 "Thread 1" SIG_DFL]
  /\ fst (eCrash_UnregisterThread sample_h 2 sample_registered) = 0
  /\ ThreadList (snd (eCrash_UnregisterThread sample_h 2 sample_registered))
     = [sample_node 3 "Thread 3" H_bt_handler]
       ++ [sample_node 1 "Thread 1" SIG_DFL].
Proof.
  assert (Hl : ThreadList sample_registered
               = [sample_node 3 "Thread 3" H_bt_handler]
                 ++ sample_node 2 "Thread 2" H_bt_handler
                    :: [sample_node 1 "Thread 1" SIG_DFL])
    by (vm_compute; reflexivity).
  split; [exact Hl|].
  assert (Hb : Forall (fun n => thread n <> 2) [sample_node 3 "Thread 3" H_bt_handler])
    by (constructor; [discriminate | constructor]).
  destruct (@unregister_removes_first_node sample_h 2 sample_registered
              [sample_node 3 "Thread 3" H_bt_handler]
              (sample_node 2 "Thread 2" H_bt_handler)
              [sample_node 1 "Thread 1" SIG_DFL] Hl Hb eq_refl)
    as (A & B & _).
  split; [exact A | exact B].
Defined.

Lemma unregister_twice_witness :
  ~ registered 1 sample_state
  /\ fst (eCrash_RegisterThread sample_h 1 "Thread 1" 0 sample_state) = 0
  /\ fst (eCrash_UnregisterThread sample_h 1
            (snd (eCrash_UnregisterThread sample_h 1
                    (snd (eCrash_RegisterThread sample_h 1 "Thread 1" 0
                            sample_state))))) = -1.
Proof.
  assert (H : ~ registered 1 sample_state).
  { intros H. vm_compute in H. exact H. }
  assert (Hok : fst (eCrash_RegisterThread sample_h 1 "Thread 1" 0 sample_state) = 0)
    by (vm_compute; reflexivity).
  split; [exact H|]. split; [exact Hok|].
  exact (proj1 (proj2 (@unregister_twice sample_h 1 "Thread 1" 0 sample_state H Hok))).
Defined.

Lemma shared_signal_unregister_resets_handler_witness :
  malloc_results sample_state = []
  /\ catchable 10 = true
  /\ sigtable sample_state 10 = SIG_DFL
  /\ sigtable
       (snd (eCrash_UnregisterThread sample_h 1
               (snd (eCrash_RegisterThread sample_h 2 "Thread 2" 10
                       (snd (eCrash_RegisterThread sample_h 1 "Thread 1" 10
                               sample_state)))))) 10
     = sigtable sample_state 10.
Proof.
  assert (Hm : malloc_results sample_state = []) by (vm_compute; reflexivity).
  assert (Hc : catchable 10 = true) by reflexivity.
  assert (Hnz : 10 <> 0) by discriminate.
  assert (Hne : 1 <> 2) by discriminate.
  split; [exact Hm|]. split; [exact Hc|]. split; [vm_compute; reflexivity|].
  exact (proj2 (proj2 (@shared_signal_unregister_resets_handler sample_h 1 2
                         "Thread 1" "Thread 2" 10 sample_state Hm Hnz Hc Hne))).
Defined.

Lemma register_uncatchable_signal_witness :
  catchable (chosen_signal 9 sample_state) = false
  /\ hd true (malloc_results sample_state) = true
  /\ fst (eCrash_RegisterThread sample_h 1 "Thread 1" 9 sample_state) = 0
  /\ ThreadList (snd (eCrash_RegisterThread sample_h 1 "Thread 1" 9 sample_state))
     = {| threadName := "Thread 1"; thread := 1;
          backtraceSignal := chosen_signal 9 sample_state; oldHandler := SIG_ERR |}
       :: ThreadList sample_state
  /\ sigtable (snd (eCrash_RegisterThread sample_h 1 "Thread 1" 9 sample_state))
     = sigtable sample_state.
Proof.
  assert (Hc : catchable (chosen_signal 9 sample_state) = false)
    by (vm_compute; reflexivity).
  assert (Hm : hd true (malloc_results sample_state) = true)
    by (vm_compute; reflexivity).
  exact (conj Hc (conj Hm
           (@register_uncatchable_signal sample_h 1 "Thread 1" 9 sample_state Hc Hm))).
Defined.

Lemma unregister_all_restores_witness :
  malloc_results sample_state = []
  /\ (forall sig,
        sigtable (unregister_all sample_h
                    (rev (map (fun r => fst (fst r)) sample_registrations))
                    (register_all sample_h sample_registrations sample_state)) sig
        = sigtable sample_state sig)
  /\ ThreadList (unregister_all sample_h
                   (rev (map (fun r => fst (fst r)) sample_registrations))
                   (register_all sample_h sample_registrations sample_state))
     = ThreadList sample_state.
Proof.
  assert (Hm : malloc_results sample_state = []) by (vm_compute; reflexivity).
  exact (conj Hm (@unregister_all_restores sample_h sample_registrations
                    sample_state Hm)).
Defined.

Lemma eCrash_Init_buffer_fits_explicit_depth_witness :
  filename shallow_params = Some "eCrash.out.filename"
  /\ terminated (signals shallow_params)
  /\ maxStackDepth shallow_params <> 0
  /\ exists s',
       eCrash_Init sample_h (Some shallow_params) boot = Returns 0 s'
       /\ gbl_backtraceCapacity s' = to_uint (maxStackDepth shallow_params + 5)
       /\ ~ stores_past_end (createGlobalBacktrace deep_env 1 s').
Proof.
  assert (Hn : filename shallow_params = Some "eCrash.out.filename") by reflexivity.
  assert (Ht : terminated (signals shallow_params))
    by (unfold terminated; simpl; tauto).
  assert (Hp : maxStackDepth shallow_params <> 0) by discriminate.
  exact (conj Hn (conj Ht (conj Hp
           (@eCrash_Init_buffer_fits_explicit_depth sample_h deep_env
              shallow_params "eCrash.out.filename" 1 boot Hn Ht Hp)))).
Defined.


Lemma rendezvous_times_out_witness :
  let node3 := sample_node 3 "Thread 3" H_bt_handler in
  pending sample_registered = []
  /\ backtraceSignal node3 <> SIGKILL
  /\ backtraceSignal node3 <> SIGSTOP
  /\ env_latency sample_env (thread node3) = None
  /\ exists s',
       rendezvous sample_env node3 sample_registered = Running s'
       /\ gbl_backtraceDoneFlag s' = 0
       /\ gbl_backtraceBuffer s' = gbl_backtraceBuffer sample_registered
       /\ gbl_backtraceEntries s' = gbl_backtraceEntries sample_registered
       /\ clock s'
          = (clock sample_registered
             + Z.to_nat (threadWaitTime (gbl_params sample_registered)))%nat.
Proof.
  intros node3.
  assert (Hp : pending sample_registered = []) by (vm_compute; reflexivity).
  assert (Hk : backtraceSignal node3 <> SIGKILL) by discriminate.
  assert (Hs : backtraceSignal node3 <> SIGSTOP) by discriminate.
  assert (Hl : env_latency sample_env (thread node3) = None) by reflexivity.
  exact (conj Hp (conj Hk (conj Hs (conj Hl
           (@rendezvous_times_out sample_env node3 sample_registered
              Hp Hk Hs (or_introl Hl)))))).
Defined.



